(** * Duka FastAPI: the inventory backend, embedded and verified

    A shallow embedding of [models.py], [jsonmap.py] and [main.py].

    - The four tables are lists of rows in insertion order, together with
      the [SERIAL] sequences that feed their primary keys.
    - A SQLAlchemy [Session] is an explicit state: the database it is bound
      to, the objects it tracks, and the reading [datetime.utcnow] gives when
      a column default fires.  Path operations are computations in a small
      state-and-exception monad over that state.
    - Python [int] is [Z]; an [INTEGER] column holds the 32-bit integers
      among them.  Python [float] (PostgreSQL [double precision]) is the
      primitive binary64 [float].  A [str] is the [string] of its UTF-8
      bytes.  [datetime] is a count of microseconds.
    - The sequences are taken never to run out of keys.
    - The order in which PostgreSQL returns the groups of a [GROUP BY] that
      has no [ORDER BY] is its own choice: it is a parameter of the
      queries, and every order is among its values.
    - One call is served at a time: what concurrent transactions do to one
      another is left to the database and is not modelled.
    - [myjwt.py] is not part of the sources at hand: the four functions
      [main.py] imports from it are taken as a record of parameters. *)

From Stdlib Require Import ZArith List String Bool Lia.
From Stdlib Require Import Floats.PrimFloat Floats.SpecFloat Floats.FloatOps.
From Stdlib Require Import Ascii Permutation.
Import ListNotations.
Local Open Scope string_scope.
Local Open Scope list_scope.
Local Open Scope Z_scope.

(* ================================================================== *)
(** * Python values *)
(* ================================================================== *)

Definition datetime := Z.

(** Conversion of an integer to binary64, rounding to nearest even: what
    [Sale.quantity * Product.selling_price] does to its integer operand. *)
Definition float_of_Z (z : Z) : float :=
  SF2Prim (binary_normalize prec emax z 0 false).

(** Exceptions a request can end with.  Only [HTTPException] carries a status
    of its own; any other exception leaves the application as a 500. *)
Inductive Exception : Type :=
| HTTPException (status_code : Z) (detail : string)
| IntegrityError (constraint : string)
| DataError (detail : string)
| MultipleResultsFound
| InvalidRequestError
| ResponseValidationError
| TypeError (detail : string).

Definition HTTP_400_BAD_REQUEST : Z := 400.
Definition HTTP_401_UNAUTHORIZED : Z := 401.
Definition HTTP_404_NOT_FOUND : Z := 404.
Definition HTTP_500_INTERNAL_SERVER_ERROR : Z := 500.

Definition status_of (e : Exception) : Z :=
  match e with
  | HTTPException status_code _ => status_code
  | _ => HTTP_500_INTERNAL_SERVER_ERROR
  end.

Inductive Result (A : Type) : Type :=
| Ok (a : A)
| Raise (e : Exception).
Arguments Ok {A} a.
Arguments Raise {A} e.

(* ================================================================== *)
(** * models.py *)
(* ================================================================== *)

Module User.
Record t : Type := mk
  { id : Z; email : string; fullname : option string; password : string }.
End User.

Module Product.
Record t : Type := mk
  { id : Z; name : string; buying_price : float; selling_price : float }.
End Product.

Module Sale.
Record t : Type := mk
  { id : Z; product_id : Z; quantity : Z; created_at : datetime }.
End Sale.

Module Purchase.
Record t : Type := mk
  { id : Z; product_id : Z; quantity : Z; created_at : datetime }.
End Purchase.

(** ** Schema declarations *)

(** [ForeignKey(column, ondelete=...)]: the referential action of the
    constraint as it is emitted in the table's DDL. *)
Inductive ReferentialAction : Type := NO_ACTION | CASCADE.

Record ForeignKey : Type := mkForeignKey
  { fk_column : string; ondelete : option ReferentialAction }.

(** [ForeignKey("products.id")], as written in [Sale] and in [Purchase]:
    no [ondelete] argument. *)
Definition Sale_product_id_fk : ForeignKey :=
  {| fk_column := "products.id"; ondelete := None |}.
Definition Purchase_product_id_fk : ForeignKey :=
  {| fk_column := "products.id"; ondelete := None |}.

(** [relationship(back_populates=..., cascade=...)]: cascades of the unit of
    work, which act on objects of a session and not on the tables. *)
Inductive CascadeOption : Type :=
| save_update | merge | refresh_expire | expunge | delete | delete_orphan.

Definition cascade_option_eqb (a b : CascadeOption) : bool :=
  match a, b with
  | save_update, save_update | merge, merge | refresh_expire, refresh_expire
  | expunge, expunge | delete, delete | delete_orphan, delete_orphan => true
  | _, _ => false
  end.

(** The option [all] of a cascade string. *)
Definition cascade_all : list CascadeOption :=
  [save_update; merge; refresh_expire; expunge; delete].

Record relationship : Type := mkRelationship
  { back_populates : string; cascade : list CascadeOption }.

(** [cascade="all, delete-orphan"] on both collections of [Product]. *)
Definition Product_sales : relationship :=
  {| back_populates := "product"; cascade := cascade_all ++ [delete_orphan] |}.
Definition Product_purchases : relationship :=
  {| back_populates := "product"; cascade := cascade_all ++ [delete_orphan] |}.

Definition cascades (r : relationship) (o : CascadeOption) : bool :=
  existsb (cascade_option_eqb o) (cascade r).

(** ** The database *)

Record Database : Type := mkDatabase
  { fastapi_usersp : list User.t;
    products : list Product.t;
    sales : list Sale.t;
    purchases : list Purchase.t;
    fastapi_usersp_id_seq : Z;
    products_id_seq : Z;
    sales_id_seq : Z;
    purchases_id_seq : Z }.

(** [Base.metadata.create_all] on an empty database. *)
Definition create_tables : Database :=
  mkDatabase [] [] [] [] 0 0 0 0.

(** A byte of the form 10xxxxxx continues a character of UTF-8; any other
    byte begins one. *)
Definition continuation_byte (b : ascii) : bool :=
  match b with
  | Ascii _ _ _ _ _ _ b6 b7 => b7 && negb b6
  end.

(** The number of characters of a [str]. *)
Fixpoint char_length (s : string) : nat :=
  match s with
  | EmptyString => 0%nat
  | String b rest =>
      if continuation_byte b then char_length rest
      else S (char_length rest)
  end.

(** [String(100)]: a value of more characters is refused by the column. *)
Definition String_fits (n : nat) (s : string) : bool :=
  (char_length s <=? n)%nat.

Definition string_too_long : Exception :=
  DataError "value too long for type character varying(100)".

(** A column of a [Mapped[int]] is an [INTEGER], of 32 bits. *)
Definition INTEGER_fits (z : Z) : bool :=
  (-2147483648 <=? z) && (z <=? 2147483647).

Definition integer_out_of_range : Exception :=
  DataError "integer out of range".

(** A [float] on its way into a column: the driver writes it into the
    statement as a number, and the number written for a negative zero is
    read as zero. *)
Definition float_param (x : float) : float :=
  if PrimFloat.eqb x 0%float then 0%float else x.

(** A new object as a path operation builds it: the keyword arguments given
    to the class, the primary key and the defaulted columns still unset. *)
Inductive Model : Type :=
| NewUser (email : string) (fullname : option string) (password : string)
| NewProduct (name : string) (buying_price selling_price : float)
| NewSale (product_id quantity : Z)
| NewPurchase (product_id quantity : Z).

Inductive Row : Type :=
| UserRow (u : User.t)
| ProductRow (p : Product.t)
| SaleRow (s : Sale.t)
| PurchaseRow (p : Purchase.t).

Definition has_product (d : Database) (product_id : Z) : bool :=
  existsb (fun p => Product.id p =? product_id) (products d).

Definition has_email (d : Database) (e : string) : bool :=
  existsb (fun u => String.eqb (User.email u) e) (fastapi_usersp d).

(** [INSERT INTO fastapi_usersp]: a value that one of the three
    [String(100)] cannot hold stops the statement before anything is done;
    then the key is drawn from the sequence (a value drawn is never given
    back) and the unique constraint on [email] is checked. *)
Definition INSERT_user (email : string) (fullname : option string)
    (password : string) (d : Database) : Result Row * Database :=
  let id := fastapi_usersp_id_seq d + 1 in
  let d1 := mkDatabase (fastapi_usersp d) (products d) (sales d) (purchases d)
              id (products_id_seq d) (sales_id_seq d) (purchases_id_seq d) in
  if negb (String_fits 100 email
           && match fullname with Some f => String_fits 100 f | None => true end
           && String_fits 100 password)
  then (Raise string_too_long, d)
  else if has_email d email
  then (Raise (IntegrityError "fastapi_usersp_email_key"), d1)
  else
    let u := User.mk id email fullname password in
    (Ok (UserRow u),
     mkDatabase (fastapi_usersp d ++ [u]) (products d) (sales d) (purchases d)
       id (products_id_seq d) (sales_id_seq d) (purchases_id_seq d)).

(** [INSERT INTO products]: a [name] its [String(100)] cannot hold stops
    the statement before anything is done; the two prices are bare [float]
    columns, with no check on them. *)
Definition INSERT_product (name : string) (buying_price selling_price : float)
    (d : Database) : Result Row * Database :=
  let id := products_id_seq d + 1 in
  if negb (String_fits 100 name)
  then (Raise string_too_long, d)
  else
    let p := Product.mk id name (float_param buying_price)
               (float_param selling_price) in
    (Ok (ProductRow p),
     mkDatabase (fastapi_usersp d) (products d ++ [p]) (sales d) (purchases d)
       (fastapi_usersp_id_seq d) id (sales_id_seq d) (purchases_id_seq d)).

(** [INSERT INTO sales]: [created_at] takes its Python-side default, the
    reading of [datetime.utcnow] at that moment.  A [product_id] or a
    [quantity] that an [INTEGER] cannot hold stops the statement before
    anything is done; then the key is drawn and the foreign key to
    [products.id] is checked.  Nothing else is asked of [quantity]. *)
Definition INSERT_sale (utcnow : datetime) (product_id quantity : Z)
    (d : Database) : Result Row * Database :=
  let id := sales_id_seq d + 1 in
  let d1 := mkDatabase (fastapi_usersp d) (products d) (sales d) (purchases d)
              (fastapi_usersp_id_seq d) (products_id_seq d) id
              (purchases_id_seq d) in
  if negb (INTEGER_fits product_id && INTEGER_fits quantity)
  then (Raise integer_out_of_range, d)
  else if negb (has_product d product_id)
  then (Raise (IntegrityError "sales_product_id_fkey"), d1)
  else
    let s := Sale.mk id product_id quantity utcnow in
    (Ok (SaleRow s),
     mkDatabase (fastapi_usersp d) (products d) (sales d ++ [s]) (purchases d)
       (fastapi_usersp_id_seq d) (products_id_seq d) id (purchases_id_seq d)).

(** [INSERT INTO purchases]: as for [sales]. *)
Definition INSERT_purchase (utcnow : datetime) (product_id quantity : Z)
    (d : Database) : Result Row * Database :=
  let id := purchases_id_seq d + 1 in
  let d1 := mkDatabase (fastapi_usersp d) (products d) (sales d) (purchases d)
              (fastapi_usersp_id_seq d) (products_id_seq d) (sales_id_seq d)
              id in
  if negb (INTEGER_fits product_id && INTEGER_fits quantity)
  then (Raise integer_out_of_range, d)
  else if negb (has_product d product_id)
  then (Raise (IntegrityError "purchases_product_id_fkey"), d1)
  else
    let p := Purchase.mk id product_id quantity utcnow in
    (Ok (PurchaseRow p),
     mkDatabase (fastapi_usersp d) (products d) (sales d) (purchases d ++ [p])
       (fastapi_usersp_id_seq d) (products_id_seq d) (sales_id_seq d) id).

Definition INSERT (utcnow : datetime) (m : Model) (d : Database)
  : Result Row * Database :=
  match m with
  | NewUser email fullname password => INSERT_user email fullname password d
  | NewProduct name buying_price selling_price =>
      INSERT_product name buying_price selling_price d
  | NewSale product_id quantity => INSERT_sale utcnow product_id quantity d
  | NewPurchase product_id quantity =>
      INSERT_purchase utcnow product_id quantity d
  end.

(** [ROLLBACK]: the tables return to what they were when the transaction
    began; the sequences keep what they have handed out. *)
Definition ROLLBACK (begun now : Database) : Database :=
  mkDatabase (fastapi_usersp begun) (products begun) (sales begun)
    (purchases begun)
    (fastapi_usersp_id_seq now) (products_id_seq now) (sales_id_seq now)
    (purchases_id_seq now).


(** ** Table-level and session-level deletion of a product

    [main.py] has no path operation that deletes; what a deletion does is
    fixed by the declarations above, read by the two functions below. *)

(** What one foreign key lets [DELETE FROM products WHERE id = ...] do to
    the rows that reference the product, given the test for "references". *)
Definition fk_on_delete {A : Type} (fk : ForeignKey) (constraint : string)
    (references : A -> bool) (rows : list A) : Result (list A) :=
  match ondelete fk with
  | Some CASCADE => Ok (filter (fun r => negb (references r)) rows)
  | Some NO_ACTION | None =>
      if existsb references rows then Raise (IntegrityError constraint)
      else Ok rows
  end.

(** [DELETE FROM products WHERE id = product_id], a statement on the tables:
    each foreign key to [products.id] is enforced with its own action. *)
Definition DELETE_product (product_id : Z) (d : Database) : Result Database :=
  match fk_on_delete Sale_product_id_fk "sales_product_id_fkey"
          (fun s => Sale.product_id s =? product_id) (sales d) with
  | Raise e => Raise e
  | Ok sales' =>
      match fk_on_delete Purchase_product_id_fk "purchases_product_id_fkey"
              (fun p => Purchase.product_id p =? product_id) (purchases d) with
      | Raise e => Raise e
      | Ok purchases' =>
          Ok (mkDatabase (fastapi_usersp d)
                (filter (fun p => negb (Product.id p =? product_id))
                   (products d))
                sales' purchases'
                (fastapi_usersp_id_seq d) (products_id_seq d)
                (sales_id_seq d) (purchases_id_seq d))
      end
  end.

(** What the unit of work does with a collection when its parent is deleted:
    with the [delete] cascade the children are deleted first, row by row;
    without it the children's foreign key would be set to NULL, which the
    non-nullable [product_id] refuses. *)
Definition cascade_on_delete {A : Type} (r : relationship)
    (constraint : string) (references : A -> bool) (rows : list A)
  : Result (list A) :=
  if cascades r delete then Ok (filter (fun x => negb (references x)) rows)
  else if existsb references rows then Raise (IntegrityError constraint)
  else Ok rows.

(** [db.delete(product); db.commit()] for the product of key [product_id]:
    the relationship cascades run, then the product's own [DELETE]. *)
Definition Session_delete_product (product_id : Z) (d : Database)
  : Result Database :=
  match cascade_on_delete Product_sales "sales_product_id_not_null"
          (fun s => Sale.product_id s =? product_id) (sales d) with
  | Raise e => Raise e
  | Ok sales' =>
      match cascade_on_delete Product_purchases
              "purchases_product_id_not_null"
              (fun p => Purchase.product_id p =? product_id) (purchases d) with
      | Raise e => Raise e
      | Ok purchases' =>
          DELETE_product product_id
            (mkDatabase (fastapi_usersp d) (products d) sales' purchases'
               (fastapi_usersp_id_seq d) (products_id_seq d)
               (sales_id_seq d) (purchases_id_seq d))
      end
  end.

(** ** Sessions *)

Inductive ObjectState : Type :=
| Pending (m : Model)
| Persistent (r : Row).

Record Session : Type := mkSession
  { bind : Database;
    identity_map : list ObjectState;
    utcnow : datetime }.

(** [Session(autocommit=False, autoflush=False, bind=engine)]: a session on
    the database, tracking nothing yet. *)
Definition SessionLocal (engine : Database) (now : datetime) : Session :=
  mkSession engine [] now.

(** The monad of path operations: a session goes in, a value or an exception
    comes out with the session as the computation left it. *)
Definition M (A : Type) : Type := Session -> Result A * Session.

Definition ret {A : Type} (a : A) : M A := fun s => (Ok a, s).

Definition raise {A : Type} (e : Exception) : M A := fun s => (Raise e, s).

Definition bindM {A B : Type} (m : M A) (k : A -> M B) : M B :=
  fun s =>
    match m s with
    | (Ok a, s') => k a s'
    | (Raise e, s') => (Raise e, s')
    end.

Notation "x <- m ;; k" := (bindM m (fun x => k))
  (at level 61, m at next level, right associativity).
Notation "m ;;; k" := (bindM m (fun _ => k))
  (at level 61, right associativity).

(** [db.execute(select(...))] and [db.query(...)]: a read of the tables. *)
Definition execute {A : Type} (q : Database -> A) : M A :=
  fun s => (Ok (q (bind s)), s).

(** [.scalar_one_or_none()] *)
Definition scalar_one_or_none {A : Type} (rows : list A) : M (option A) :=
  match rows with
  | [] => ret None
  | [r] => ret (Some r)
  | _ => raise MultipleResultsFound
  end.

(** [db.add(obj)]: the object becomes pending; the position it takes in the
    session stands for the Python reference the path operation keeps. *)
Definition add (m : Model) : M nat :=
  fun s =>
    (Ok (List.length (identity_map s)),
     mkSession (bind s) (identity_map s ++ [Pending m]) (utcnow s)).

(** The flush: every pending object is inserted, in the order of [add]; the
    first statement that fails stops it. *)
Fixpoint flush (now : datetime) (objs : list ObjectState) (d : Database)
  : Result (list ObjectState) * Database :=
  match objs with
  | [] => (Ok [], d)
  | Persistent r :: rest =>
      match flush now rest d with
      | (Ok rest', d') => (Ok (Persistent r :: rest'), d')
      | (Raise e, d') => (Raise e, d')
      end
  | Pending m :: rest =>
      match INSERT now m d with
      | (Raise e, d1) => (Raise e, d1)
      | (Ok r, d1) =>
          match flush now rest d1 with
          | (Ok rest', d2) => (Ok (Persistent r :: rest'), d2)
          | (Raise e, d2) => (Raise e, d2)
          end
      end
  end.

(** [db.commit()]: flush, then commit; a failed flush rolls the transaction
    back, drops the new objects and lets the exception through. *)
Definition commit : M unit :=
  fun s =>
    match flush (utcnow s) (identity_map s) (bind s) with
    | (Ok objs, d) => (Ok tt, mkSession d objs (utcnow s))
    | (Raise e, d) => (Raise e, mkSession (ROLLBACK (bind s) d) [] (utcnow s))
    end.

(** The row of the table that carries the primary key of [r]. *)
Definition SELECT_by_pk (d : Database) (r : Row) : option Row :=
  match r with
  | UserRow u =>
      option_map UserRow
        (find (fun x => User.id x =? User.id u) (fastapi_usersp d))
  | ProductRow p =>
      option_map ProductRow
        (find (fun x => Product.id x =? Product.id p) (products d))
  | SaleRow s =>
      option_map SaleRow (find (fun x => Sale.id x =? Sale.id s) (sales d))
  | PurchaseRow p =>
      option_map PurchaseRow
        (find (fun x => Purchase.id x =? Purchase.id p) (purchases d))
  end.

(** [db.refresh(obj)]: the attributes are read again from the row. *)
Definition refresh (obj : nat) : M Row :=
  fun s =>
    match nth_error (identity_map s) obj with
    | Some (Persistent r) =>
        match SELECT_by_pk (bind s) r with
        | Some r' => (Ok r', s)
        | None => (Raise InvalidRequestError, s)
        end
    | _ => (Raise InvalidRequestError, s)
    end.

(** [db.close()]: whatever the session held is released; what remains is the
    database as the last commit or rollback left it. *)
Definition close (s : Session) : Database := bind s.

(** A path operation run on a session of its own over [d], closed after. *)
Definition run {A : Type} (op : M A) (d : Database) (now : datetime)
  : Result A * Database :=
  let (r, s) := op (SessionLocal d now) in (r, close s).

(** ** Queries *)

(** [left.outerjoin(right, onclause)]: every left row, paired with each right
    row that matches it, or with NULL when none does. *)
Definition outerjoin {A B : Type} (left : list A) (right : list B)
    (onclause : A -> B -> bool) : list (A * option B) :=
  flat_map
    (fun a =>
       match filter (onclause a) right with
       | [] => [(a, None)]
       | matches => map (fun b => (a, Some b)) matches
       end)
    left.

(** One more row for the groups gathered so far: it joins the group of its
    key, or opens a new group after the others. *)
Fixpoint add_to_group {X : Type} (key : X -> Z) (r : X)
    (groups : list (X * list X)) : list (X * list X) :=
  match groups with
  | [] => [(r, [r])]
  | (first, members) :: rest =>
      if key first =? key r then (first, members ++ [r]) :: rest
      else (first, members) :: add_to_group key r rest
  end.

(** The groups of the rows by key: each with its first row (the source of
    the columns that are not aggregated) and all its rows in table order. *)
Definition gather {X : Type} (key : X -> Z) (rows : list X)
  : list (X * list X) :=
  fold_left (fun groups r => add_to_group key r groups) rows [].

(** An order for a list, given as the positions to take one after the
    other from what is left of it; what is left when the positions run out,
    or point outside, follows as it is. *)
Fixpoint arrange {X : Type} (choices : list nat) (l : list X) : list X :=
  match choices with
  | [] => l
  | c :: rest =>
      match nth_error l c with
      | Some x => x :: arrange rest (firstn c l ++ skipn (S c) l)
      | None => l
      end
  end.

(** The orders PostgreSQL chooses, one for each [GROUP BY] of a query. *)
Definition Planner : Type := nat -> list nat.

(** [.group_by(key)] without [order_by]: the groups, in the order chosen. *)
Definition group_by {X : Type} (choices : list nat) (key : X -> Z)
    (rows : list X) : list (X * list X) :=
  arrange choices (gather key rows).

(** [func.sum]: NULL values are skipped; the sum of no value is NULL. *)
Definition func_sum {A : Type} (plus : A -> A -> A)
    (values : list (option A)) : option A :=
  fold_left
    (fun acc v =>
       match v, acc with
       | None, _ => acc
       | Some x, None => Some x
       | Some x, Some a => Some (plus a x)
       end)
    values None.

(** [func.coalesce(value, default)] *)
Definition coalesce {A : Type} (value : option A) (default : A) : A :=
  match value with
  | Some v => v
  | None => default
  end.

(** [.options(selectinload(rel))] of a many-to-one relationship: each row
    comes with the parent it references, when there is one. *)
Definition selectinload {A B : Type} (references : A -> B -> bool)
    (parents : list B) (rows : list A) : list (A * option B) :=
  map (fun r => (r, find (references r) parents)) rows.

(* ================================================================== *)
(** * jsonmap.py *)
(* ================================================================== *)

Module UserPostRegister.
Record t : Type := mk { email : string; fullname : string; password : string }.
End UserPostRegister.

Module UserPostLogin.
Record t : Type := mk { email : string; password : string }.
End UserPostLogin.

Module ProductPostMap.
Record t : Type := mk
  { name : string; buying_price : float; selling_price : float }.
End ProductPostMap.

Module ProductGetMap.
Record t : Type := mk
  { name : string; buying_price : float; selling_price : float; id : Z }.
End ProductGetMap.

Module SalePostMap.
Record t : Type := mk { product_id : Z; quantity : Z }.
End SalePostMap.

Module SaleGetMap.
Record t : Type := mk
  { product_id : Z; quantity : Z; id : Z; created_at : datetime }.
End SaleGetMap.

Module PurchasePostMap.
Record t : Type := mk { product_id : Z; quantity : Z }.
End PurchasePostMap.

Module PurchaseGetMap.
Record t : Type := mk
  { product_id : Z; quantity : Z; id : Z; created_at : datetime }.
End PurchaseGetMap.

Module SalesPerProduct.
Record t : Type := mk
  { product_id : Z;
    product_name : string;
    total_quantity_sold : Z;
    total_sales_amount : float }.
End SalesPerProduct.

Module StockPerProduct.
Record t : Type := mk
  { product_id : Z; product_name : string; remaining_stock : Z }.
End StockPerProduct.

Module Token.
Record t : Type := mk { access_token : string; token_type : string }.
End Token.

(** [orm_mode]: a response schema is read off the attributes of the object
    the path operation returned; an object of another class has not got
    them. *)
Definition ProductGetMap_from_orm (r : Row) : Result ProductGetMap.t :=
  match r with
  | ProductRow p =>
      Ok (ProductGetMap.mk (Product.name p) (Product.buying_price p)
            (Product.selling_price p) (Product.id p))
  | _ => Raise ResponseValidationError
  end.

Definition SaleGetMap_from_orm (r : Row) : Result SaleGetMap.t :=
  match r with
  | SaleRow s =>
      Ok (SaleGetMap.mk (Sale.product_id s) (Sale.quantity s) (Sale.id s)
            (Sale.created_at s))
  | _ => Raise ResponseValidationError
  end.

Definition PurchaseGetMap_from_orm (r : Row) : Result PurchaseGetMap.t :=
  match r with
  | PurchaseRow p =>
      Ok (PurchaseGetMap.mk (Purchase.product_id p) (Purchase.quantity p)
            (Purchase.id p) (Purchase.created_at p))
  | _ => Raise ResponseValidationError
  end.

(* ================================================================== *)
(** * main.py *)
(* ================================================================== *)

(** The four functions imported from [myjwt], whose source is not at hand:
    [main.py] is embedded over any implementation of them.  The two that
    look a user up are given the database they read. *)
Record MyJwt : Type := mkMyJwt
  { create_access_token : string -> Z -> string;
    authenticate_user : Database -> string -> string -> option User.t;
    get_password_hash : string -> string;
    get_current_user : Database -> string -> Result User.t }.

Section Main.

Variable jwt : MyJwt.

Variable planner : Planner.

(** ** Auth *)

Definition register_user (user : UserPostRegister.t) : M Token.t :=
  rows <- execute (fun d =>
            filter (fun u =>
                      String.eqb (User.email u) (UserPostRegister.email user))
              (fastapi_usersp d)) ;;
  existing_user <- scalar_one_or_none rows ;;
  match existing_user with
  | Some _ =>
      raise (HTTPException HTTP_400_BAD_REQUEST "Email already registered")
  | None =>
      let hashed_password :=
        get_password_hash jwt (UserPostRegister.password user) in
      model_obj <- add (NewUser (UserPostRegister.email user)
                          (Some (UserPostRegister.fullname user))
                          hashed_password) ;;
      commit ;;;
      refresh model_obj ;;;
      let access_token :=
        create_access_token jwt (UserPostRegister.email user) 30 in
      ret (Token.mk access_token "bearer")
  end.

(** [login_user] takes no session from [get_db]; it reads through
    [authenticate_user] only. *)
Definition login_user (user : UserPostLogin.t) (d : Database)
  : Result Token.t :=
  match authenticate_user jwt d (UserPostLogin.email user)
          (UserPostLogin.password user) with
  | None =>
      Raise (HTTPException HTTP_401_UNAUTHORIZED "Invalid email or password")
  | Some auth_user =>
      let access_token := create_access_token jwt (User.email auth_user) 30 in
      Ok (Token.mk access_token "bearer")
  end.

(** ** Products *)

Definition get_products (current_user : User.t) : M (list Product.t) :=
  execute (fun d => products d).

Definition create_product (json_product_obj : ProductPostMap.t)
    (current_user : User.t) : M Row :=
  model_obj <- add (NewProduct (ProductPostMap.name json_product_obj)
                      (ProductPostMap.buying_price json_product_obj)
                      (ProductPostMap.selling_price json_product_obj)) ;;
  commit ;;;
  refresh model_obj.

(** ** Sales *)

Definition get_sales (current_user : User.t)
  : M (list (Sale.t * option Product.t)) :=
  execute (fun d =>
    selectinload (fun s p => Product.id p =? Sale.product_id s)
      (products d) (sales d)).

Definition create_sale (json_sale_obj : SalePostMap.t)
    (current_user : User.t) : M Row :=
  sale <- add (NewSale (SalePostMap.product_id json_sale_obj)
                 (SalePostMap.quantity json_sale_obj)) ;;
  commit ;;;
  refresh sale.

(** ** Purchases *)

Definition get_purchases (current_user : User.t)
  : M (list (Purchase.t * option Product.t)) :=
  execute (fun d =>
    selectinload (fun pu p => Product.id p =? Purchase.product_id pu)
      (products d) (purchases d)).

Definition create_purchase (json_purchase_obj : PurchasePostMap.t)
    (current_user : User.t) : M Row :=
  purchase <- add (NewPurchase (PurchasePostMap.product_id json_purchase_obj)
                     (PurchasePostMap.quantity json_purchase_obj)) ;;
  commit ;;;
  refresh purchase.

(** ** Dashboard *)

Definition sales_per_product (current_user : User.t)
  : M (list SalesPerProduct.t) :=
  execute (fun d =>
    map (fun g : (Product.t * option Sale.t)
                 * list (Product.t * option Sale.t) =>
           SalesPerProduct.mk
             (Product.id (fst (fst g)))
             (Product.name (fst (fst g)))
             (coalesce
                (func_sum Z.add
                   (map (fun r => option_map Sale.quantity (snd r)) (snd g)))
                0)
             (coalesce
                (func_sum PrimFloat.add
                   (map (fun r =>
                           option_map
                             (fun s =>
                                PrimFloat.mul (float_of_Z (Sale.quantity s))
                                  (Product.selling_price (fst r)))
                             (snd r))
                      (snd g)))
                0%float))
      (group_by (planner 0%nat) (fun r => Product.id (fst r))
         (outerjoin (products d) (sales d)
            (fun p s => Product.id p =? Sale.product_id s)))).

(** The column of a subquery row on the nullable side of an outer join. *)
Definition c {K V : Type} (row : option (K * option V)) : option V :=
  match row with
  | Some (_, v) => v
  | None => None
  end.

Definition stock_per_product (current_user : User.t)
  : M (list StockPerProduct.t) :=
  execute (fun d =>
    let sales_sub :=
      map (fun g : Sale.t * list Sale.t =>
             (Sale.product_id (fst g),
              func_sum Z.add (map (fun s => Some (Sale.quantity s)) (snd g))))
        (group_by (planner 0%nat) Sale.product_id (sales d)) in
    let purchase_sub :=
      map (fun g : Purchase.t * list Purchase.t =>
             (Purchase.product_id (fst g),
              func_sum Z.add
                (map (fun p => Some (Purchase.quantity p)) (snd g))))
        (group_by (planner 1%nat) Purchase.product_id (purchases d)) in
    map (fun row : (Product.t * option (Z * option Z))
                   * option (Z * option Z) =>
           StockPerProduct.mk
             (Product.id (fst (fst row)))
             (Product.name (fst (fst row)))
             (coalesce (c (snd row)) 0 - coalesce (c (snd (fst row))) 0))
      (outerjoin
         (outerjoin (products d) sales_sub
            (fun p sub => Product.id p =? fst sub))
         purchase_sub
         (fun row sub => Product.id (fst row) =? fst sub))).

End Main.

(** ** The application: dependencies and routes *)

Inductive Event : Type := session_acquired | session_closed.

(** What a call to the application acts on: the database behind the engine,
    the clock, and a log of the sessions taken and given back. *)
Record World : Type := mkWorld
  { database : Database; clock : datetime; events : list Event }.

Definition W (A : Type) : Type := World -> Result A * World.

Definition log (e : Event) (w : World) : World :=
  mkWorld (database w) (clock w) (events w ++ [e]).

Inductive Request : Type :=
| GET_root
| POST_register (user : UserPostRegister.t)
| POST_login (user : UserPostLogin.t)
| GET_products (token : string)
| POST_products (token : string) (json_product_obj : ProductPostMap.t)
| GET_sales (token : string)
| POST_sales (token : string) (json_sale_obj : SalePostMap.t)
| GET_purchases (token : string)
| POST_purchases (token : string) (json_purchase_obj : PurchasePostMap.t)
| GET_dashboard_sales_per_product (token : string)
| GET_dashboard_stock_per_product (token : string).

Inductive Body : Type :=
| RootBody (version : list (string * string))
| TokenBody (t : Token.t)
| ProductBody (p : ProductGetMap.t)
| ProductListBody (l : list ProductGetMap.t)
| SaleBody (s : SaleGetMap.t)
| SaleListBody (l : list SaleGetMap.t)
| PurchaseBody (p : PurchaseGetMap.t)
| PurchaseListBody (l : list PurchaseGetMap.t)
| SalesPerProductBody (l : list SalesPerProduct.t)
| StockPerProductBody (l : list StockPerProduct.t).

(** Whether the path operation of a route declares [Depends(get_db)]. *)
Definition depends_on_get_db (req : Request) : bool :=
  match req with
  | GET_root | POST_login _ => false
  | _ => true
  end.

Definition read_root : list (string * string) :=
  [("Duka FastAPI", "Version 1.0")].

(** [response_model]: the value returned is validated into the schema. *)
Definition response_model {A B : Type} (validate : A -> Result B)
    (wrap : B -> Body) (r : Result A * World) : Result Body * World :=
  match r with
  | (Ok a, w) =>
      match validate a with
      | Ok b => (Ok (wrap b), w)
      | Raise e => (Raise e, w)
      end
  | (Raise e, w) => (Raise e, w)
  end.

Section App.

Variable jwt : MyJwt.

Variable planner : Planner.

(** [SessionLocal()], the call [get_db] makes on the module-level object of
    [models.py]: what that call returns, or raises, is a parameter here. *)
Variable SessionLocal_call : Session -> Result Session.

(** [get_db] around the path operation that depends on it: the code before
    [yield] runs first; the [finally] clause runs when the path operation
    has returned and when it has raised. *)
Definition get_db {A : Type} (path_operation : M A) : W A :=
  fun w =>
    (* db = SessionLocal() *)
    match SessionLocal_call (SessionLocal (database w) (clock w)) with
    | Raise e => (Raise e, w)
    | Ok db =>
        let w1 := log session_acquired w in
        (* try: yield db *)
        let (r, db') := path_operation db in
        (* finally: db.close() *)
        (r, log session_closed (mkWorld (close db') (clock w1) (events w1)))
    end.

(** [Depends(get_current_user)] and then [Depends(get_db)], in the order of
    the parameters; a dependency that raises ends the call there. *)
Definition Depends_current_user_then_db {A : Type} (token : string)
    (path_operation : User.t -> M A) : W A :=
  fun w =>
    match get_current_user jwt (database w) token with
    | Raise e => (Raise e, w)
    | Ok current_user => get_db (path_operation current_user) w
    end.

Definition app (req : Request) : W Body :=
  fun w =>
    match req with
    | GET_root => (Ok (RootBody read_root), w)
    | POST_register user =>
        response_model Ok TokenBody (get_db (register_user jwt user) w)
    | POST_login user =>
        response_model Ok TokenBody (login_user jwt user (database w), w)
    | GET_products token =>
        response_model
          (fun l => Ok (map (fun p =>
                               ProductGetMap.mk (Product.name p)
                                 (Product.buying_price p)
                                 (Product.selling_price p) (Product.id p)) l))
          ProductListBody
          (Depends_current_user_then_db token get_products w)
    | POST_products token json_product_obj =>
        response_model ProductGetMap_from_orm ProductBody
          (Depends_current_user_then_db token
             (create_product json_product_obj) w)
    | GET_sales token =>
        response_model
          (fun l => Ok (map (fun s : Sale.t * option Product.t =>
                               SaleGetMap.mk (Sale.product_id (fst s))
                                 (Sale.quantity (fst s)) (Sale.id (fst s))
                                 (Sale.created_at (fst s))) l))
          SaleListBody
          (Depends_current_user_then_db token get_sales w)
    | POST_sales token json_sale_obj =>
        response_model SaleGetMap_from_orm SaleBody
          (Depends_current_user_then_db token (create_sale json_sale_obj) w)
    | GET_purchases token =>
        response_model
          (fun l => Ok (map (fun p : Purchase.t * option Product.t =>
                               PurchaseGetMap.mk (Purchase.product_id (fst p))
                                 (Purchase.quantity (fst p))
                                 (Purchase.id (fst p))
                                 (Purchase.created_at (fst p))) l))
          PurchaseListBody
          (Depends_current_user_then_db token get_purchases w)
    | POST_purchases token json_purchase_obj =>
        response_model PurchaseGetMap_from_orm PurchaseBody
          (Depends_current_user_then_db token
             (create_purchase json_purchase_obj) w)
    | GET_dashboard_sales_per_product token =>
        response_model Ok SalesPerProductBody
          (Depends_current_user_then_db token (sales_per_product planner) w)
    | GET_dashboard_stock_per_product token =>
        response_model Ok StockPerProductBody
          (Depends_current_user_then_db token (stock_per_product planner) w)
    end.

End App.

(** What [SessionLocal()] does in the program: [models.py] binds
    [SessionLocal] to [Session(...)], a session and not a factory of
    sessions, and a [Session] cannot be called. *)
Definition Session_call (s : Session) : Result Session :=
  Raise (TypeError "'Session' object is not callable").

(** The application as [main.py] and [models.py] put it together. *)
Definition main_app (jwt : MyJwt) (planner : Planner) : Request -> W Body :=
  app jwt planner Session_call.

(** How many sessions a log shows taken, and how many given back. *)
Definition count_event (e : Event) (l : list Event) : nat :=
  List.length (filter (fun x => match x, e with
                                | session_acquired, session_acquired
                                | session_closed, session_closed => true
                                | _, _ => false
                                end) l).

(* ================================================================== *)
(** * Vocabulary of the properties *)
(* ================================================================== *)

Definition sum_Z (l : list Z) : Z := fold_right Z.add 0 l.

(** A sum of binary64 values taken left to right, 0 when there is none. *)
Definition sum_float (l : list float) : float :=
  match l with
  | [] => 0%float
  | x :: rest => fold_left PrimFloat.add rest x
  end.

Definition sales_of (d : Database) (product_id : Z) : list Sale.t :=
  filter (fun s => Sale.product_id s =? product_id) (sales d).

Definition purchases_of (d : Database) (product_id : Z) : list Purchase.t :=
  filter (fun p => Purchase.product_id p =? product_id) (purchases d).

(** Purchased minus sold. *)
Definition remaining_stock (d : Database) (product_id : Z) : Z :=
  sum_Z (map Purchase.quantity (purchases_of d product_id))
  - sum_Z (map Sale.quantity (sales_of d product_id)).

Definition total_quantity_sold (d : Database) (product_id : Z) : Z :=
  sum_Z (map Sale.quantity (sales_of d product_id)).

Definition total_sales_amount (d : Database) (p : Product.t) : float :=
  sum_float
    (map (fun s =>
            PrimFloat.mul (float_of_Z (Sale.quantity s))
              (Product.selling_price p))
       (sales_of d (Product.id p))).

(** The row a product finds in such a subquery, if any. *)
Definition subquery_row {R : Type} (key qty : R -> Z) (rows : list R)
    (k : Z) : option (Z * option Z) :=
  match filter (fun r => key r =? k) rows with
  | [] => None
  | r :: rs =>
      Some (key r, func_sum Z.add (map (fun r => Some (qty r)) (r :: rs)))
  end.


(** No sale and no purchase references a product that is not there. *)
Definition no_orphans (d : Database) : Prop :=
  Forall (fun s => has_product d (Sale.product_id s) = true) (sales d)
  /\ Forall (fun p => has_product d (Purchase.product_id p) = true)
       (purchases d).

(** What the constraints of the schema keep true of the tables: primary keys
    drawn from the sequences, the unique [email], the foreign keys. *)
Record well_formed (d : Database) : Prop := mk_well_formed
  { users_pk : NoDup (map User.id (fastapi_usersp d));
    users_email : NoDup (map User.email (fastapi_usersp d));
    products_pk : NoDup (map Product.id (products d));
    sales_pk : NoDup (map Sale.id (sales d));
    purchases_pk : NoDup (map Purchase.id (purchases d));
    users_seq :
      Forall (fun u => User.id u <= fastapi_usersp_id_seq d)
        (fastapi_usersp d);
    products_seq :
      Forall (fun p => Product.id p <= products_id_seq d) (products d);
    sales_seq : Forall (fun s => Sale.id s <= sales_id_seq d) (sales d);
    purchases_seq :
      Forall (fun p => Purchase.id p <= purchases_id_seq d) (purchases d);
    foreign_keys : no_orphans d }.

(** The states the application reaches from empty tables through its four
    writing path operations, whatever their outcome. *)
Inductive reachable (jwt : MyJwt) : Database -> Prop :=
| reach_create_tables : reachable jwt create_tables
| reach_register_user d user now :
    reachable jwt d ->
    reachable jwt (snd (run (register_user jwt user) d now))
| reach_create_product d json_product_obj u now :
    reachable jwt d ->
    reachable jwt (snd (run (create_product json_product_obj u) d now))
| reach_create_sale d json_sale_obj u now :
    reachable jwt d ->
    reachable jwt (snd (run (create_sale json_sale_obj u) d now))
| reach_create_purchase d json_purchase_obj u now :
    reachable jwt d ->
    reachable jwt (snd (run (create_purchase json_purchase_obj u) d now)).

(** The bearer token a request presents, for the routes that ask for one. *)
Definition token_of (req : Request) : option string :=
  match req with
  | GET_root | POST_register _ | POST_login _ => None
  | GET_products token | POST_products token _
  | GET_sales token | POST_sales token _
  | GET_purchases token | POST_purchases token _
  | GET_dashboard_sales_per_product token
  | GET_dashboard_stock_per_product token => Some token
  end.

(** One list continues another by at most one element at its end. *)
Definition grown_by_at_most_one {A : Type} (before after : list A) : Prop :=
  after = before \/ exists x, after = before ++ [x].

(** A request ends with an exception of the given status. *)
Definition fails_with {A : Type} (status : Z) (r : Result A) : Prop :=
  exists e, r = Raise e /\ status_of e = status.

(** ** Concrete values for the examples *)

Definition alice : User.t := User.mk 1 "alice@duka.test" (Some "Alice") "$2b$".

(** An implementation of the [myjwt] functions for the examples: one known
    token, a hash that tags the password. *)
Definition jwt_example : MyJwt :=
  {| create_access_token := fun sub minutes => String.append "token:" sub;
     authenticate_user := fun d email password =>
       find (fun u => String.eqb (User.email u) email
                      && String.eqb (User.password u) (String.append "$2b$" password))
         (fastapi_usersp d);
     get_password_hash := fun password => String.append "$2b$" password;
     get_current_user := fun d token =>
       if String.eqb token "token:alice@duka.test" then Ok alice
       else Raise (HTTPException HTTP_401_UNAUTHORIZED
                     "Could not validate credentials") |}.

(** Forty euro signs, each of the three bytes E2 82 AC. *)
Definition forty_euro_signs : string :=
  string_of_list_ascii
    (List.concat
       (repeat [ascii_of_nat 226; ascii_of_nat 130; ascii_of_nat 172] 40)).

(** One product, [tea], bought at 5.0 and sold at 10.0. *)
Definition tea : Product.t := Product.mk 1 "tea" 5%float 10%float.

Definition shop : Database := mkDatabase [alice] [tea] [] [] 1 1 0 0.

(** The same shop after sales of 2 and of 3 and a purchase of 4. *)
Definition shop_trading : Database :=
  mkDatabase [alice] [tea]
    [Sale.mk 1 1 2 1000; Sale.mk 2 1 3 2000]
    [Purchase.mk 1 1 4 500]
    1 1 2 1.

(* ================================================================== *)
(** * Properties *)
(* ================================================================== *)

(** ** Basic facts *)

Lemma find_app_fresh {A : Type} (f : A -> bool) (l : list A) (x : A) :
  Forall (fun y => f y = false) l -> f x = true -> find f (l ++ [x]) = Some x.
Proof.
  induction 1 as [|y l Hy _ IH]; intros Hx; simpl.
  - now rewrite Hx.
  - rewrite Hy. auto.
Qed.

Lemma Forall_le_fresh {A : Type} (key : A -> Z) (seq : Z) (l : list A) :
  Forall (fun y => key y <= seq) l ->
  Forall (fun y => (key y =? seq + 1) = false) l.
Proof.
  intros H. eapply Forall_impl; [|exact H]. simpl. intros. lia.
Qed.

Lemma Forall_le_not_In {A : Type} (key : A -> Z) (seq : Z) (l : list A) :
  Forall (fun y => key y <= seq) l -> ~ In (seq + 1) (map key l).
Proof.
  intros H Hin. apply in_map_iff in Hin as [y [Hy Hin]].
  rewrite Forall_forall in H. apply H in Hin. lia.
Qed.

(** ** What one call to a write path operation does *)

Lemma database_eta (d : Database) :
  mkDatabase (fastapi_usersp d) (products d) (sales d) (purchases d)
    (fastapi_usersp_id_seq d) (products_id_seq d) (sales_id_seq d)
    (purchases_id_seq d) = d.
Proof.
  destruct d; reflexivity.
Qed.

Lemma create_sale_known (product_id quantity : Z) (u : User.t)
    (d : Database) (now : datetime) :
  Forall (fun s => Sale.id s <= sales_id_seq d) (sales d) ->
  INTEGER_fits product_id = true ->
  INTEGER_fits quantity = true ->
  has_product d product_id = true ->
  run (create_sale (SalePostMap.mk product_id quantity) u) d now =
  (Ok (SaleRow (Sale.mk (sales_id_seq d + 1) product_id quantity now)),
   mkDatabase (fastapi_usersp d) (products d)
     (sales d ++ [Sale.mk (sales_id_seq d + 1) product_id quantity now])
     (purchases d) (fastapi_usersp_id_seq d) (products_id_seq d)
     (sales_id_seq d + 1) (purchases_id_seq d)).
Proof.
  intros Hseq Hpid Hq Hp.
  unfold run, create_sale, bindM, add, commit, refresh. cbn.
  unfold INSERT_sale. rewrite Hpid, Hq, Hp. cbn.
  rewrite find_app_fresh; cbn; auto using Z.eqb_refl.
  now apply Forall_le_fresh.
Qed.

Lemma create_sale_unknown (product_id quantity : Z) (u : User.t)
    (d : Database) (now : datetime) :
  INTEGER_fits product_id = true ->
  INTEGER_fits quantity = true ->
  has_product d product_id = false ->
  run (create_sale (SalePostMap.mk product_id quantity) u) d now =
  (Raise (IntegrityError "sales_product_id_fkey"),
   mkDatabase (fastapi_usersp d) (products d) (sales d) (purchases d)
     (fastapi_usersp_id_seq d) (products_id_seq d)
     (sales_id_seq d + 1) (purchases_id_seq d)).
Proof.
  intros Hpid Hq Hp.
  unfold run, create_sale, bindM, add, commit, refresh. cbn.
  unfold INSERT_sale. rewrite Hpid, Hq, Hp. reflexivity.
Qed.

Lemma create_sale_out_of_range (product_id quantity : Z) (u : User.t)
    (d : Database) (now : datetime) :
  INTEGER_fits product_id && INTEGER_fits quantity = false ->
  run (create_sale (SalePostMap.mk product_id quantity) u) d now =
  (Raise integer_out_of_range, d).
Proof.
  intros Hrange.
  unfold run, create_sale, bindM, add, commit, refresh. cbn.
  unfold INSERT_sale. rewrite Hrange. cbn. unfold ROLLBACK.
  now rewrite database_eta.
Qed.

Lemma create_purchase_known (product_id quantity : Z) (u : User.t)
    (d : Database) (now : datetime) :
  Forall (fun p => Purchase.id p <= purchases_id_seq d) (purchases d) ->
  INTEGER_fits product_id = true ->
  INTEGER_fits quantity = true ->
  has_product d product_id = true ->
  run (create_purchase (PurchasePostMap.mk product_id quantity) u) d now =
  (Ok (PurchaseRow
         (Purchase.mk (purchases_id_seq d + 1) product_id quantity now)),
   mkDatabase (fastapi_usersp d) (products d) (sales d)
     (purchases d
      ++ [Purchase.mk (purchases_id_seq d + 1) product_id quantity now])
     (fastapi_usersp_id_seq d) (products_id_seq d)
     (sales_id_seq d) (purchases_id_seq d + 1)).
Proof.
  intros Hseq Hpid Hq Hp.
  unfold run, create_purchase, bindM, add, commit, refresh. cbn.
  unfold INSERT_purchase. rewrite Hpid, Hq, Hp. cbn.
  rewrite find_app_fresh; cbn; auto using Z.eqb_refl.
  now apply Forall_le_fresh.
Qed.

Lemma create_purchase_unknown (product_id quantity : Z) (u : User.t)
    (d : Database) (now : datetime) :
  INTEGER_fits product_id = true ->
  INTEGER_fits quantity = true ->
  has_product d product_id = false ->
  run (create_purchase (PurchasePostMap.mk product_id quantity) u) d now =
  (Raise (IntegrityError "purchases_product_id_fkey"),
   mkDatabase (fastapi_usersp d) (products d) (sales d) (purchases d)
     (fastapi_usersp_id_seq d) (products_id_seq d)
     (sales_id_seq d) (purchases_id_seq d + 1)).
Proof.
  intros Hpid Hq Hp.
  unfold run, create_purchase, bindM, add, commit, refresh. cbn.
  unfold INSERT_purchase. rewrite Hpid, Hq, Hp. reflexivity.
Qed.

Lemma create_purchase_out_of_range (product_id quantity : Z) (u : User.t)
    (d : Database) (now : datetime) :
  INTEGER_fits product_id && INTEGER_fits quantity = false ->
  run (create_purchase (PurchasePostMap.mk product_id quantity) u) d now =
  (Raise integer_out_of_range, d).
Proof.
  intros Hrange.
  unfold run, create_purchase, bindM, add, commit, refresh. cbn.
  unfold INSERT_purchase. rewrite Hrange. cbn. unfold ROLLBACK.
  now rewrite database_eta.
Qed.

Lemma create_product_fits (name : string) (buying_price selling_price : float)
    (u : User.t) (d : Database) (now : datetime) :
  Forall (fun p => Product.id p <= products_id_seq d) (products d) ->
  (char_length name <= 100)%nat ->
  run (create_product (ProductPostMap.mk name buying_price selling_price) u)
    d now =
  (Ok (ProductRow
         (Product.mk (products_id_seq d + 1) name (float_param buying_price)
            (float_param selling_price))),
   mkDatabase (fastapi_usersp d)
     (products d
      ++ [Product.mk (products_id_seq d + 1) name (float_param buying_price)
            (float_param selling_price)])
     (sales d) (purchases d) (fastapi_usersp_id_seq d)
     (products_id_seq d + 1) (sales_id_seq d) (purchases_id_seq d)).
Proof.
  intros Hseq Hlen.
  unfold run, create_product, bindM, add, commit, refresh. cbn.
  unfold INSERT_product, String_fits.
  apply Nat.leb_le in Hlen. rewrite Hlen. cbn.
  rewrite find_app_fresh; cbn; auto using Z.eqb_refl.
  now apply Forall_le_fresh.
Qed.

Lemma create_product_too_long (name : string)
    (buying_price selling_price : float) (u : User.t) (d : Database)
    (now : datetime) :
  (100 < char_length name)%nat ->
  run (create_product (ProductPostMap.mk name buying_price selling_price) u)
    d now =
  (Raise string_too_long, d).
Proof.
  intros Hlen.
  unfold run, create_product, bindM, add, commit, refresh. cbn.
  unfold INSERT_product, String_fits.
  apply Nat.leb_gt in Hlen. rewrite Hlen. cbn. unfold ROLLBACK.
  now rewrite database_eta.
Qed.

(** ** The constraints hold in every state the application reaches *)

Lemma create_tables_well_formed : well_formed create_tables.
Proof.
  constructor; cbn; try constructor; constructor.
Qed.

Lemma NoDup_snoc {A : Type} (l : list A) (x : A) :
  NoDup l -> ~ In x l -> NoDup (l ++ [x]).
Proof.
  intros Hl Hx. apply NoDup_app; auto.
  - constructor; [intros []|constructor].
  - intros a Ha [<-|[]]. contradiction.
Qed.

Lemma Forall_le_snoc {A : Type} (key : A -> Z) (seq : Z) (l : list A)
    (x : A) :
  Forall (fun y => key y <= seq) l -> key x = seq + 1 ->
  Forall (fun y => key y <= seq + 1) (l ++ [x]).
Proof.
  intros Hl Hx. apply Forall_app. split.
  - eapply Forall_impl; [|exact Hl]. simpl. intros. lia.
  - constructor; [lia|constructor].
Qed.

Lemma Forall_le_succ {A : Type} (key : A -> Z) (seq : Z) (l : list A) :
  Forall (fun y => key y <= seq) l -> Forall (fun y => key y <= seq + 1) l.
Proof.
  intros Hl. eapply Forall_impl; [|exact Hl]. simpl. intros. lia.
Qed.

Ltac well_formed_fields :=
  match goal with
  | H : well_formed _ |- _ => destruct H as [? ? ? ? ? ? ? ? ? [? ?]]
  end;
  constructor; cbn in *;
  try solve
    [ assumption
    | apply Forall_le_succ; assumption
    | rewrite map_app; apply NoDup_snoc;
      [assumption | apply Forall_le_not_In; assumption]
    | apply Forall_le_snoc; [assumption | reflexivity] ].

Lemma create_sale_well_formed (json_sale_obj : SalePostMap.t) (u : User.t)
    (d : Database) (now : datetime) :
  well_formed d -> well_formed (snd (run (create_sale json_sale_obj u) d now)).
Proof.
  intros Hwf. destruct json_sale_obj as [product_id quantity].
  destruct (INTEGER_fits product_id && INTEGER_fits quantity) eqn:Hrange;
    [|now rewrite create_sale_out_of_range].
  apply andb_true_iff in Hrange as [Hpid Hq].
  destruct (has_product d product_id) eqn:Hp.
  - rewrite create_sale_known by (auto; apply Hwf).
    well_formed_fields.
    split; cbn; [|assumption].
    apply Forall_app. split; [assumption|]. constructor; [exact Hp|constructor].
  - rewrite create_sale_unknown by assumption.
    well_formed_fields. split; assumption.
Qed.

Lemma create_purchase_well_formed (json_purchase_obj : PurchasePostMap.t)
    (u : User.t) (d : Database) (now : datetime) :
  well_formed d ->
  well_formed (snd (run (create_purchase json_purchase_obj u) d now)).
Proof.
  intros Hwf. destruct json_purchase_obj as [product_id quantity].
  destruct (INTEGER_fits product_id && INTEGER_fits quantity) eqn:Hrange;
    [|now rewrite create_purchase_out_of_range].
  apply andb_true_iff in Hrange as [Hpid Hq].
  destruct (has_product d product_id) eqn:Hp.
  - rewrite create_purchase_known by (auto; apply Hwf).
    well_formed_fields.
    split; cbn; [assumption|].
    apply Forall_app. split; [assumption|]. constructor; [exact Hp|constructor].
  - rewrite create_purchase_unknown by assumption.
    well_formed_fields. split; assumption.
Qed.

Lemma create_product_well_formed (json_product_obj : ProductPostMap.t)
    (u : User.t) (d : Database) (now : datetime) :
  well_formed d ->
  well_formed (snd (run (create_product json_product_obj u) d now)).
Proof.
  intros Hwf. destruct json_product_obj as [name buying_price selling_price].
  destruct (Nat.le_gt_cases (char_length name) 100) as [Hlen|Hlen].
  - rewrite create_product_fits by (auto; apply Hwf).
    well_formed_fields.
    split; cbn; unfold has_product; cbn;
      (eapply Forall_impl; [|eassumption]); cbn; intros a Ha;
      rewrite existsb_app; unfold has_product in Ha; rewrite Ha; reflexivity.
  - now rewrite create_product_too_long.
Qed.

Lemma filter_nil_existsb {A : Type} (f : A -> bool) (l : list A) :
  filter f l = [] -> existsb f l = false.
Proof.
  induction l as [|a l IH]; cbn; auto.
  destruct (f a); [discriminate|auto].
Qed.

Lemma filter_unique_key {A : Type} (key : A -> string) (l : list A) (u : A) :
  NoDup (map key l) -> In u l ->
  filter (fun x => String.eqb (key x) (key u)) l = [u].
Proof.
  induction l as [|a l IH]; cbn; intros Hnd Hin; [contradiction|].
  inversion Hnd as [|? ? Ha Hl]; subst.
  destruct Hin as [->|Hin].
  - rewrite String.eqb_refl. f_equal.
    destruct (filter (fun x => String.eqb (key x) (key u)) l) as [|b r] eqn:Hf;
      [reflexivity|].
    exfalso. apply Ha.
    assert (Hb : In b (filter (fun x => String.eqb (key x) (key u)) l))
      by (rewrite Hf; now left).
    apply filter_In in Hb as [Hb Hk]. apply String.eqb_eq in Hk.
    rewrite <- Hk. now apply in_map.
  - destruct (String.eqb (key a) (key u)) eqn:Hk; [|auto].
    exfalso. apply String.eqb_eq in Hk. apply Ha. rewrite Hk. now apply in_map.
Qed.

Section Register.

Variable jwt : MyJwt.

Lemma register_user_taken (user : UserPostRegister.t) (d : Database)
    (now : datetime) (existing : User.t) :
  NoDup (map User.email (fastapi_usersp d)) ->
  In existing (fastapi_usersp d) ->
  User.email existing = UserPostRegister.email user ->
  run (register_user jwt user) d now =
  (Raise (HTTPException HTTP_400_BAD_REQUEST "Email already registered"), d).
Proof.
  intros Hnd Hin Hemail.
  unfold run, register_user, bindM, execute. cbn.
  rewrite <- Hemail.
  rewrite (filter_unique_key User.email _ existing Hnd Hin). reflexivity.
Qed.

Lemma register_user_well_formed (user : UserPostRegister.t) (d : Database)
    (now : datetime) :
  well_formed d -> well_formed (snd (run (register_user jwt user) d now)).
Proof.
  intros Hwf. destruct user as [email fullname password].
  unfold run, register_user, bindM, execute. cbn.
  destruct (filter (fun u => String.eqb (User.email u) email)
              (fastapi_usersp d)) as [|x [|y l]] eqn:Hf; cbn; auto.
  apply filter_nil_existsb in Hf.
  unfold commit, refresh, ret. cbn. unfold INSERT_user, has_email. cbn.
  rewrite Hf.
  destruct (negb _); cbn.
  - unfold ROLLBACK. now rewrite database_eta.
  - rewrite find_app_fresh; cbn; auto using Z.eqb_refl;
      [|apply Forall_le_fresh; apply Hwf].
    well_formed_fields; [|split; assumption].
    rewrite map_app. apply NoDup_snoc; [assumption|]. cbn.
    intros Hin. apply in_map_iff in Hin as [u [Hu Hin]].
    assert (Hex : existsb (fun u => String.eqb (User.email u) email)
                    (fastapi_usersp d) = true).
    { apply existsb_exists. exists u. split; [assumption|].
      now apply String.eqb_eq. }
    congruence.
Qed.

(** Every state the application reaches from empty tables through
    [register_user], [create_product], [create_sale] and [create_purchase],
    whether the calls succeeded or failed, keeps the constraints of the
    schema: keys and emails without repetition, keys no greater than their
    sequence, every sale and purchase referencing a product that is there. *)
Lemma reachable_well_formed (d : Database) :
  reachable jwt d -> well_formed d.
Proof.
  induction 1;
    auto using create_tables_well_formed, register_user_well_formed,
      create_product_well_formed, create_sale_well_formed,
      create_purchase_well_formed.
Qed.

End Register.

Lemma shop_well_formed : well_formed shop.
Proof.
  constructor; cbn;
    repeat first
      [ split
      | apply NoDup_nil
      | apply NoDup_cons; [intros Hin; cbn in Hin; tauto|]
      | apply Forall_nil
      | apply Forall_cons; [cbn; first [reflexivity | lia]|] ].
Qed.

Lemma shop_trading_well_formed : well_formed shop_trading.
Proof.
  constructor; cbn;
    repeat first
      [ split
      | apply NoDup_nil
      | apply NoDup_cons;
        [intros Hin; cbn in Hin; intuition discriminate|]
      | apply Forall_nil
      | apply Forall_cons; [cbn; first [reflexivity | lia]|] ].
Qed.

(** ** Ledger: recording sales and purchases *)


(** C3, as the code has it.  Neither [create_sale] nor [create_purchase]
    looks at the sign of [quantity].  With a quantity of zero or less that
    an [INTEGER] holds, a call for an existing product succeeds and appends
    one row with that very quantity, and a call for a product that does not
    exist is refused by the foreign key; with a value that an [INTEGER]
    does not hold, the statement is refused as out of range.  Both refusals
    are a 500 and not a 400, and leave the two ledgers as they were. *)
Theorem nonpositive_quantity_is_not_validated
    (product_id quantity : Z) (u : User.t) (d : Database) (now : datetime) :
  well_formed d ->
  quantity <= 0 ->
  (INTEGER_fits product_id = true ->
   INTEGER_fits quantity = true ->
   has_product d product_id = true ->
   (exists s d',
      run (create_sale (SalePostMap.mk product_id quantity) u) d now
      = (Ok (SaleRow s), d')
      /\ Sale.product_id s = product_id /\ Sale.quantity s = quantity
      /\ sales d' = sales d ++ [s] /\ purchases d' = purchases d)
   /\ (exists p d',
         run (create_purchase (PurchasePostMap.mk product_id quantity) u)
           d now
         = (Ok (PurchaseRow p), d')
         /\ Purchase.product_id p = product_id
         /\ Purchase.quantity p = quantity
         /\ purchases d' = purchases d ++ [p] /\ sales d' = sales d))
  /\ (INTEGER_fits product_id = true ->
      INTEGER_fits quantity = true ->
      has_product d product_id = false ->
      (exists d',
         run (create_sale (SalePostMap.mk product_id quantity) u) d now
         = (Raise (IntegrityError "sales_product_id_fkey"), d')
         /\ sales d' = sales d /\ purchases d' = purchases d)
      /\ (exists d',
            run (create_purchase (PurchasePostMap.mk product_id quantity) u)
              d now
            = (Raise (IntegrityError "purchases_product_id_fkey"), d')
            /\ sales d' = sales d /\ purchases d' = purchases d))
  /\ (INTEGER_fits product_id && INTEGER_fits quantity = false ->
      run (create_sale (SalePostMap.mk product_id quantity) u) d now
      = (Raise integer_out_of_range, d)
      /\ run (create_purchase (PurchasePostMap.mk product_id quantity) u)
           d now
         = (Raise integer_out_of_range, d))
  /\ status_of (IntegrityError "sales_product_id_fkey")
     = HTTP_500_INTERNAL_SERVER_ERROR
  /\ status_of (IntegrityError "purchases_product_id_fkey")
     = HTTP_500_INTERNAL_SERVER_ERROR
  /\ status_of integer_out_of_range = HTTP_500_INTERNAL_SERVER_ERROR.
Proof.
  intros Hwf _. split; [|split; [|split; [|repeat split]]].
  - intros Hpid Hq Hp. split.
    + rewrite create_sale_known by (auto; apply Hwf).
      eexists; eexists; repeat split; reflexivity.
    + rewrite create_purchase_known by (auto; apply Hwf).
      eexists; eexists; repeat split; reflexivity.
  - intros Hpid Hq Hp. split.
    + rewrite create_sale_unknown by assumption.
      eexists; repeat split; reflexivity.
    + rewrite create_purchase_unknown by assumption.
      eexists; repeat split; reflexivity.
  - intros Hrange. split.
    + now apply create_sale_out_of_range.
    + now apply create_purchase_out_of_range.
Qed.

Lemma nonpositive_quantity_is_not_validated_witness :
  exists s d',
    run (create_sale (SalePostMap.mk 1 (-3)) alice) shop 10
    = (Ok (SaleRow s), d')
    /\ Sale.product_id s = 1 /\ Sale.quantity s = -3
    /\ sales d' = sales shop ++ [s] /\ purchases d' = purchases shop.
Proof.
  refine (proj1 (proj1 (nonpositive_quantity_is_not_validated
                          1 (-3) alice shop 10 shop_well_formed _) _ _ _)).
  - lia.
  - reflexivity.
  - reflexivity.
  - reflexivity.
Defined.

(** C3, as the specification states it, fails on a sale of quantity 0 of the
    one product of [shop]: the call does not end in a 400 and the sales
    ledger has one row more. *)
Lemma zero_quantity_sale_is_recorded :
  ~ fails_with HTTP_400_BAD_REQUEST
      (fst (run (create_sale (SalePostMap.mk 1 0) alice) shop 10))
  /\ sales (snd (run (create_sale (SalePostMap.mk 1 0) alice) shop 10))
     = [Sale.mk 1 1 0 10]
  /\ sales shop = [].
Proof.
  split; [|split; reflexivity].
  intros [e [He _]]. vm_compute in He. discriminate.
Qed.

(** C4, as the code has it.  [create_sale] does not look the product up.  A
    sale for a product that does not exist reaches the [INSERT]: when the
    two integers are ones an [INTEGER] holds, the foreign key refuses it;
    when one is not, the statement is refused as out of range before the
    foreign key is looked at, and nothing at all changes.  Either way the
    exception leaves as a 500, never as a 404, and no table changes. *)
Theorem unknown_product_sale_is_a_500_with_no_row
    (product_id quantity : Z) (u : User.t) (d : Database) (now : datetime) :
  has_product d product_id = false ->
  exists e d',
    run (create_sale (SalePostMap.mk product_id quantity) u) d now
    = (Raise e, d')
    /\ status_of e = HTTP_500_INTERNAL_SERVER_ERROR
    /\ sales d' = sales d /\ purchases d' = purchases d
    /\ products d' = products d /\ fastapi_usersp d' = fastapi_usersp d
    /\ (INTEGER_fits product_id && INTEGER_fits quantity = true ->
        e = IntegrityError "sales_product_id_fkey")
    /\ (INTEGER_fits product_id && INTEGER_fits quantity = false ->
        e = integer_out_of_range /\ d' = d).
Proof.
  intros Hp.
  destruct (INTEGER_fits product_id && INTEGER_fits quantity) eqn:Hrange.
  - apply andb_true_iff in Hrange as [Hpid Hq].
    rewrite create_sale_unknown by assumption.
    eexists; eexists. split; [reflexivity|].
    do 5 (split; [reflexivity|]). split; [reflexivity|discriminate].
  - rewrite create_sale_out_of_range by assumption.
    eexists; eexists. split; [reflexivity|].
    do 5 (split; [reflexivity|]). split; [discriminate|]. intros _. now split.
Qed.

Lemma unknown_product_sale_is_a_500_with_no_row_witness :
  exists e d',
    run (create_sale (SalePostMap.mk 7 2) alice) shop 10
    = (Raise e, d')
    /\ status_of e = HTTP_500_INTERNAL_SERVER_ERROR
    /\ sales d' = sales shop /\ purchases d' = purchases shop
    /\ products d' = products shop /\ fastapi_usersp d' = fastapi_usersp shop
    /\ (INTEGER_fits 7 && INTEGER_fits 2 = true ->
        e = IntegrityError "sales_product_id_fkey")
    /\ (INTEGER_fits 7 && INTEGER_fits 2 = false ->
        e = integer_out_of_range /\ d' = shop).
Proof.
  apply (unknown_product_sale_is_a_500_with_no_row 7 2 alice shop 10).
  reflexivity.
Defined.

(** C4, as the specification states it, fails on a sale for product 7 in
    [shop], which has product 1 only: the call ends in an [IntegrityError],
    whose status is 500, not in a 404. *)
Lemma unknown_product_sale_is_not_a_404 :
  fst (run (create_sale (SalePostMap.mk 7 2) alice) shop 10)
  = Raise (IntegrityError "sales_product_id_fkey")
  /\ ~ fails_with HTTP_404_NOT_FOUND
         (fst (run (create_sale (SalePostMap.mk 7 2) alice) shop 10)).
Proof.
  split; [reflexivity|].
  intros [e [He Hs]]. vm_compute in He. inversion He; subst.
  vm_compute in Hs. discriminate.
Qed.




(** ** Identity store *)

(** C6.  When a user with the email of the request is already registered,
    [register_user] ends in a 400, "Email already registered", and the
    database is what it was: the user's row with its id, email, fullname and
    password hash, and no row more. *)
Theorem duplicate_registration_is_refused
    (jwt : MyJwt) (user : UserPostRegister.t) (d : Database) (now : datetime)
    (existing : User.t) :
  well_formed d ->
  In existing (fastapi_usersp d) ->
  User.email existing = UserPostRegister.email user ->
  exists e d',
    run (register_user jwt user) d now = (Raise e, d')
    /\ e = HTTPException HTTP_400_BAD_REQUEST "Email already registered"
    /\ status_of e = HTTP_400_BAD_REQUEST
    /\ d' = d
    /\ In existing (fastapi_usersp d')
    /\ fastapi_usersp d' = fastapi_usersp d.
Proof.
  intros Hwf Hin Hemail.
  rewrite (register_user_taken jwt user d now existing (users_email d Hwf))
    by assumption.
  eexists; eexists; repeat split; auto.
Qed.

Lemma duplicate_registration_is_refused_witness :
  exists e d',
    run (register_user jwt_example
           (UserPostRegister.mk "alice@duka.test" "Alice Again" "hunter2"))
      shop 10
    = (Raise e, d')
    /\ e = HTTPException HTTP_400_BAD_REQUEST "Email already registered"
    /\ status_of e = HTTP_400_BAD_REQUEST
    /\ d' = shop
    /\ In alice (fastapi_usersp d')
    /\ fastapi_usersp d' = fastapi_usersp shop.
Proof.
  apply (duplicate_registration_is_refused jwt_example
           (UserPostRegister.mk "alice@duka.test" "Alice Again" "hunter2")
           shop 10 alice shop_well_formed).
  - cbn. left. reflexivity.
  - reflexivity.
Defined.

(** ** Catalog *)




(** ** Reads *)

(** C10.  The two dashboard path operations and the three list path
    operations write nothing: run on any database, and whatever the order
    PostgreSQL chooses for the groups, each returns its rows and leaves the
    four tables, and the sequences, as they were. *)
Theorem read_operations_write_nothing
    (planner : Planner) (u : User.t) (d : Database) (now : datetime) :
  (exists rows, run (sales_per_product planner u) d now = (Ok rows, d))
  /\ (exists rows, run (stock_per_product planner u) d now = (Ok rows, d))
  /\ (exists rows, run (get_products u) d now = (Ok rows, d))
  /\ (exists rows, run (get_sales u) d now = (Ok rows, d))
  /\ (exists rows, run (get_purchases u) d now = (Ok rows, d)).
Proof.
  repeat split; eexists; reflexivity.
Qed.

(** ** Deleting a product *)

Lemma existsb_filter_negb {A : Type} (f : A -> bool) (l : list A) :
  existsb f (filter (fun x => negb (f x)) l) = false.
Proof.
  induction l as [|a l IH]; cbn; auto.
  destruct (f a) eqn:Hf; cbn; auto. now rewrite Hf.
Qed.

Lemma filter_negb_nil {A : Type} (f : A -> bool) (l : list A) :
  filter f (filter (fun x => negb (f x)) l) = [].
Proof.
  induction l as [|a l IH]; cbn; auto.
  destruct (f a) eqn:Hf; cbn; auto. now rewrite Hf.
Qed.

Lemma existsb_false_filter {A : Type} (f : A -> bool) (l : list A) :
  existsb f l = false -> filter f l = [].
Proof.
  induction l as [|a l IH]; cbn; auto.
  destruct (f a); cbn; [discriminate|auto].
Qed.

Lemma has_product_after_delete (l : list Product.t) (deleted x : Z) :
  x <> deleted ->
  existsb (fun p => Product.id p =? x)
    (filter (fun p => negb (Product.id p =? deleted)) l)
  = existsb (fun p => Product.id p =? x) l.
Proof.
  intros Hx. induction l as [|a l IH]; cbn; auto.
  destruct (Product.id a =? deleted) eqn:Ha; cbn.
  - rewrite IH. replace (Product.id a =? x) with false by lia. reflexivity.
  - now rewrite IH.
Qed.

Lemma Session_delete_product_result (product_id : Z) (d : Database) :
  Session_delete_product product_id d =
  Ok (mkDatabase (fastapi_usersp d)
        (filter (fun p => negb (Product.id p =? product_id)) (products d))
        (filter (fun s => negb (Sale.product_id s =? product_id)) (sales d))
        (filter (fun p => negb (Purchase.product_id p =? product_id))
           (purchases d))
        (fastapi_usersp_id_seq d) (products_id_seq d)
        (sales_id_seq d) (purchases_id_seq d)).
Proof.
  unfold Session_delete_product, cascade_on_delete. cbn.
  unfold DELETE_product, fk_on_delete. cbn.
  rewrite (existsb_filter_negb (fun s => Sale.product_id s =? product_id)).
  rewrite (existsb_filter_negb
             (fun p => Purchase.product_id p =? product_id)).
  reflexivity.
Qed.

Lemma no_orphans_after_delete (product_id : Z) (d : Database)
    (sales' : list Sale.t) (purchases' : list Purchase.t) :
  Forall (fun s => has_product d (Sale.product_id s) = true
                   /\ Sale.product_id s <> product_id) sales' ->
  Forall (fun p => has_product d (Purchase.product_id p) = true
                   /\ Purchase.product_id p <> product_id) purchases' ->
  no_orphans
    (mkDatabase (fastapi_usersp d)
       (filter (fun p => negb (Product.id p =? product_id)) (products d))
       sales' purchases'
       (fastapi_usersp_id_seq d) (products_id_seq d)
       (sales_id_seq d) (purchases_id_seq d)).
Proof.
  intros Hs Hp. split; cbn.
  - eapply Forall_impl; [|exact Hs]. cbn. intros s [Hhas Hne].
    unfold has_product in *. cbn. now rewrite has_product_after_delete.
  - eapply Forall_impl; [|exact Hp]. cbn. intros p [Hhas Hne].
    unfold has_product in *. cbn. now rewrite has_product_after_delete.
Qed.

Lemma Forall_filter_and {A : Type} (P : A -> Prop) (f : A -> bool)
    (l : list A) :
  Forall P l -> Forall (fun x => P x /\ f x = true) (filter f l).
Proof.
  induction 1 as [|a l Ha _ IH]; cbn; [constructor|].
  destruct (f a) eqn:Hf; auto.
Qed.

Lemma Forall_existsb_false {A : Type} (P : A -> Prop) (f : A -> bool)
    (l : list A) :
  Forall P l -> existsb f l = false ->
  Forall (fun x => P x /\ f x = false) l.
Proof.
  induction 1 as [|a l Ha _ IH]; cbn; [constructor|].
  intros Hex. apply orb_false_iff in Hex as [Hfa Hl]. auto.
Qed.

(** C7, as the code has it.  The cascade is declared on the relationships
    of [Product], and so it is the session that carries it out: deleting a
    product through the session deletes its sales and its purchases with it
    and leaves no orphan.  The foreign keys themselves have no [ondelete]:
    on the tables, a delete of a product that some sale or purchase
    references is refused, and one that goes through removes no sale and no
    purchase; either way no orphan appears. *)
Theorem product_deletion_cascades_through_the_session
    (product_id : Z) (d : Database) :
  no_orphans d ->
  (exists d',
     Session_delete_product product_id d = Ok d'
     /\ has_product d' product_id = false
     /\ sales d'
        = filter (fun s => negb (Sale.product_id s =? product_id)) (sales d)
     /\ purchases d'
        = filter (fun p => negb (Purchase.product_id p =? product_id))
            (purchases d)
     /\ sales_of d' product_id = []
     /\ purchases_of d' product_id = []
     /\ no_orphans d')
  /\ (sales_of d product_id <> [] \/ purchases_of d product_id <> [] ->
      exists constraint,
        DELETE_product product_id d = Raise (IntegrityError constraint))
  /\ (forall d',
        DELETE_product product_id d = Ok d' ->
        sales d' = sales d /\ purchases d' = purchases d /\ no_orphans d').
Proof.
  intros [Hs Hp]. split; [|split].
  - rewrite Session_delete_product_result. eexists. split; [reflexivity|].
    repeat split; cbn.
    + unfold has_product. cbn.
      apply (existsb_filter_negb (fun p => Product.id p =? product_id)).
    + unfold sales_of. cbn.
      apply (filter_negb_nil (fun s => Sale.product_id s =? product_id)).
    + unfold purchases_of. cbn.
      apply (filter_negb_nil (fun p => Purchase.product_id p =? product_id)).
    + eapply Forall_impl;
        [|apply (Forall_filter_and _
                   (fun s => negb (Sale.product_id s =? product_id)) _ Hs)].
      cbn. intros s [Hhas Hne]. unfold has_product in *. cbn.
      rewrite has_product_after_delete; [assumption|].
      apply negb_true_iff in Hne. lia.
    + eapply Forall_impl;
        [|apply (Forall_filter_and _
                   (fun p => negb (Purchase.product_id p =? product_id))
                   _ Hp)].
      cbn. intros p [Hhas Hne]. unfold has_product in *. cbn.
      rewrite has_product_after_delete; [assumption|].
      apply negb_true_iff in Hne. lia.
  - intros Href. unfold DELETE_product, fk_on_delete. cbn.
    destruct (existsb (fun s => Sale.product_id s =? product_id) (sales d))
      eqn:Hes; [eexists; reflexivity|].
    destruct (existsb (fun p => Purchase.product_id p =? product_id)
                (purchases d)) eqn:Hep; [eexists; reflexivity|].
    apply existsb_false_filter in Hes, Hep.
    unfold sales_of, purchases_of in Href. tauto.
  - intros d'. unfold DELETE_product, fk_on_delete. cbn.
    destruct (existsb (fun s => Sale.product_id s =? product_id) (sales d))
      eqn:Hes; [discriminate|].
    destruct (existsb (fun p => Purchase.product_id p =? product_id)
                (purchases d)) eqn:Hep; [discriminate|].
    intros Heq. inversion Heq; subst; clear Heq. cbn.
    split; [reflexivity|]. split; [reflexivity|].
    apply no_orphans_after_delete.
    + eapply Forall_impl; [|apply (Forall_existsb_false _ _ _ Hs Hes)].
      cbn. intros s [Hhas Hne]. split; [assumption|lia].
    + eapply Forall_impl; [|apply (Forall_existsb_false _ _ _ Hp Hep)].
      cbn. intros p [Hhas Hne]. split; [assumption|lia].
Qed.

Lemma product_deletion_cascades_through_the_session_witness :
  exists d',
    Session_delete_product 1 shop_trading = Ok d'
    /\ has_product d' 1 = false
    /\ sales d'
       = filter (fun s => negb (Sale.product_id s =? 1)) (sales shop_trading)
    /\ purchases d'
       = filter (fun p => negb (Purchase.product_id p =? 1))
           (purchases shop_trading)
    /\ sales_of d' 1 = []
    /\ purchases_of d' 1 = []
    /\ no_orphans d'.
Proof.
  apply (product_deletion_cascades_through_the_session 1 shop_trading).
  split; cbn; repeat constructor.
Defined.

(** C7, as the specification states it, fails on the tables of
    [shop_trading]: the foreign key of [sales] has no [ondelete], so the
    delete of product 1, which two sales reference, is refused and deletes
    nothing. *)
Lemma table_level_delete_does_not_cascade :
  ondelete Sale_product_id_fk = None
  /\ ondelete Purchase_product_id_fk = None
  /\ DELETE_product 1 shop_trading
     = Raise (IntegrityError "sales_product_id_fkey")
  /\ sales_of shop_trading 1 = [Sale.mk 1 1 2 1000; Sale.mk 2 1 3 2000].
Proof.
  repeat split.
Qed.

(** ** Sessions of a call *)

Lemma response_model_world {A B : Type} (validate : A -> Result B)
    (wrap : B -> Body) (r : Result A * World) :
  snd (response_model validate wrap r) = snd r.
Proof.
  destruct r as [[a|e] w]; cbn; [destruct (validate a)|]; reflexivity.
Qed.

(** C8, against the code.  In the program, [SessionLocal()] raises: no call
    takes a session, whatever the route, and none is closed; every call to
    a route that depends on [get_db] ends with an exception, its path
    operation never run.  So it is for [GET /products] with a token that
    [get_current_user] accepts: the call ends in the [TypeError], and the
    log of sessions is as empty as before. *)
Theorem no_call_obtains_a_session
    (jwt : MyJwt) (planner : Planner) (req : Request) (w : World) :
  snd (main_app jwt planner req w) = w
  /\ count_event session_acquired (events (snd (main_app jwt planner req w)))
     = count_event session_acquired (events w)
  /\ (depends_on_get_db req = true ->
      exists e, fst (main_app jwt planner req w) = Raise e)
  /\ main_app jwt_example planner (GET_products "token:alice@duka.test")
       (mkWorld shop 10 [])
     = (Raise (TypeError "'Session' object is not callable"),
        mkWorld shop 10 []).
Proof.
  assert (Hworld : snd (main_app jwt planner req w) = w).
  { destruct req;
      unfold main_app, app, Depends_current_user_then_db, get_db,
        Session_call;
      rewrite ?response_model_world; try reflexivity;
      destruct (get_current_user jwt (database w) token); reflexivity. }
  split; [exact Hworld|]. split; [now rewrite Hworld|]. split.
  - intros Hdep.
    destruct req; cbn in Hdep; try discriminate;
      unfold main_app, app, Depends_current_user_then_db, get_db,
        Session_call;
      try (destruct (get_current_user jwt (database w) token));
      cbn; eexists; reflexivity.
  - reflexivity.
Qed.

Lemma no_call_obtains_a_session_witness :
  exists e,
    fst (main_app jwt_example (fun _ => [])
           (POST_sales "token:alice@duka.test" (SalePostMap.mk 1 2))
           (mkWorld shop 10 []))
    = Raise e.
Proof.
  apply (proj1 (proj2 (proj2 (no_call_obtains_a_session jwt_example
                                (fun _ => [])
                                (POST_sales "token:alice@duka.test"
                                   (SalePostMap.mk 1 2))
                                (mkWorld shop 10 []))))).
  reflexivity.
Defined.

(** ** Aggregation: joins, groups and sums *)

Section Grouping.

Context {X : Type} (key : X -> Z).

Lemma gather_snoc (rows : list X) (x : X) :
  gather key (rows ++ [x]) = add_to_group key x (gather key rows).
Proof.
  unfold gather. now rewrite fold_left_app.
Qed.


(** The groups of one key, before and after a row is added. *)
Lemma add_to_group_lookup (x : X) (groups : list (X * list X)) (k : Z) :
  filter (fun g => key (fst g) =? k) (add_to_group key x groups) =
  if key x =? k then
    match filter (fun g => key (fst g) =? k) groups with
    | [] => [(x, [x])]
    | (first, members) :: others => (first, members ++ [x]) :: others
    end
  else filter (fun g => key (fst g) =? k) groups.
Proof.
  induction groups as [|[first members] rest IH]; cbn.
  - destruct (key x =? k); reflexivity.
  - destruct (key first =? key x) eqn:Hfx; cbn.
    + destruct (key x =? k) eqn:Hxk.
      * replace (key first =? k) with true by lia. reflexivity.
      * replace (key first =? k) with false by lia. reflexivity.
    + rewrite IH. destruct (key x =? k) eqn:Hxk.
      * replace (key first =? k) with false by lia. reflexivity.
      * reflexivity.
Qed.

(** There is one group per key, holding the rows of that key in table
    order. *)
Lemma gather_lookup (rows : list X) (k : Z) :
  filter (fun g => key (fst g) =? k) (gather key rows) =
  match filter (fun x => key x =? k) rows with
  | [] => []
  | r :: rs => [(r, r :: rs)]
  end.
Proof.
  induction rows as [|x rows IH] using rev_ind; [reflexivity|].
  rewrite gather_snoc, add_to_group_lookup, filter_app, IH. cbn.
  destruct (key x =? k).
  - destruct (filter (fun x => key x =? k) rows); reflexivity.
  - now rewrite app_nil_r.
Qed.





End Grouping.

(** *** The order of the groups *)

Lemma arrange_Permutation {X : Type} (choices : list nat) (l : list X) :
  Permutation l (arrange choices l).
Proof.
  revert l. induction choices as [|c rest IH]; intros l; cbn; [reflexivity|].
  destruct (nth_error l c) as [x|] eqn:Hc; [|reflexivity].
  rewrite <- (firstn_skipn_middle c l Hc) at 1.
  rewrite <- Permutation_middle. constructor. apply IH.
Qed.


Lemma split_at_length {X : Type} (l1 l2 : list X) (x : X) :
  nth_error (l1 ++ x :: l2) (List.length l1) = Some x
  /\ firstn (List.length l1) (l1 ++ x :: l2) = l1
  /\ skipn (S (List.length l1)) (l1 ++ x :: l2) = l2.
Proof.
  induction l1 as [|a l1 [IHn [IHf IHs]]]; cbn; auto.
  repeat split; auto. now rewrite IHf.
Qed.

(** No order is left out: whatever order the groups come back in, some
    choice of positions gives it. *)
Lemma arrange_complete {X : Type} (l l' : list X) :
  Permutation l l' -> exists choices, arrange choices l = l'.
Proof.
  revert l. induction l' as [|x l' IH]; intros l Hperm.
  - exists []. cbn. apply Permutation_nil. now symmetry.
  - assert (Hin : In x l)
      by (eapply Permutation_in; [symmetry; exact Hperm|now left]).
    apply in_split in Hin as [l1 [l2 ->]].
    symmetry in Hperm. apply Permutation_cons_app_inv in Hperm.
    destruct (IH (l1 ++ l2)) as [rest Hrest]; [now symmetry|].
    exists (List.length l1 :: rest). cbn.
    destruct (split_at_length l1 l2 x) as [-> [Hf Hs]].
    cbn in Hs. now rewrite Hf, Hs, Hrest.
Qed.

Lemma Permutation_filter {X : Type} (f : X -> bool) (l l' : list X) :
  Permutation l l' -> Permutation (filter f l) (filter f l').
Proof.
  induction 1 as [|x l l' _ IH|x y l|l l' l'' _ IH1 _ IH2]; cbn.
  - constructor.
  - destruct (f x); [constructor|]; exact IH.
  - destruct (f x), (f y); try reflexivity. constructor.
  - etransitivity; eassumption.
Qed.

(** Looking a key up among groups with one group per key gives the same
    answer in whatever order the groups come. *)
Lemma filter_arrange_unique {X : Type} (f : X -> bool) (choices : list nat)
    (l : list X) :
  (List.length (filter f l) <= 1)%nat ->
  filter f (arrange choices l) = filter f l.
Proof.
  intros Hone.
  pose proof (Permutation_filter f _ _ (arrange_Permutation choices l))
    as Hperm.
  destruct (filter f l) as [|a [|b r]]; cbn in Hone.
  - now apply Permutation_nil.
  - now apply Permutation_length_1_inv.
  - lia.
Qed.

Lemma fold_left_Z_add (l : list Z) (a : Z) :
  fold_left Z.add l a = a + sum_Z l.
Proof.
  revert a. induction l as [|x l IH]; intros a; cbn; [lia|].
  rewrite IH. unfold sum_Z. lia.
Qed.

Lemma func_sum_from {A B : Type} (plus : A -> A -> A) (f : B -> A)
    (l : list B) (a : A) :
  fold_left
    (fun acc v =>
       match v, acc with
       | None, _ => acc
       | Some x, None => Some x
       | Some x, Some a => Some (plus a x)
       end)
    (map (fun b => Some (f b)) l) (Some a)
  = Some (fold_left plus (map f l) a).
Proof.
  revert a. induction l as [|x l IH]; intros a; cbn; [reflexivity|apply IH].
Qed.

(** [func.sum] over a column that is never NULL. *)
Lemma func_sum_not_null {A B : Type} (plus : A -> A -> A) (f : B -> A)
    (l : list B) :
  func_sum plus (map (fun b => Some (f b)) l) =
  match l with
  | [] => None
  | x :: rest => Some (fold_left plus (map f rest) (f x))
  end.
Proof.
  destruct l as [|x rest]; [reflexivity|].
  unfold func_sum. cbn. apply func_sum_from.
Qed.

Lemma coalesce_sum_Z {B : Type} (f : B -> Z) (l : list B) :
  coalesce (func_sum Z.add (map (fun b => Some (f b)) l)) 0
  = sum_Z (map f l).
Proof.
  rewrite func_sum_not_null. destruct l as [|x rest]; cbn; [reflexivity|].
  apply fold_left_Z_add.
Qed.


Lemma filter_map_commute {A B : Type} (f : A -> B) (test : B -> bool)
    (l : list A) :
  filter test (map f l) = map f (filter (fun a => test (f a)) l).
Proof.
  induction l as [|a l IH]; cbn; [reflexivity|].
  destruct (test (f a)); cbn; now rewrite IH.
Qed.

(** An outer join in which every left row has exactly one partner, NULL
    or not, keeps the left rows one for one. *)
Lemma outerjoin_one {A B : Type} (left : list A) (right : list B)
    (onclause : A -> B -> bool) (partner : A -> option B) :
  (forall a,
     filter (onclause a) right =
     match partner a with Some b => [b] | None => [] end) ->
  outerjoin left right onclause = map (fun a => (a, partner a)) left.
Proof.
  intros Hone. unfold outerjoin.
  induction left as [|a left IH]; cbn [flat_map]; [reflexivity|].
  rewrite IH, Hone. cbn [map]. destruct (partner a); reflexivity.
Qed.


(** The subqueries of [stock_per_product]: for a key, at most one row, with
    the sum over the rows of that key. *)
Lemma subquery_lookup {R : Type} (choices : list nat) (key qty : R -> Z)
    (rows : list R) (k : Z) :
  filter (fun sub : Z * option Z => k =? fst sub)
    (map (fun g : R * list R =>
            (key (fst g),
             func_sum Z.add (map (fun r => Some (qty r)) (snd g))))
       (group_by choices key rows))
  = match filter (fun r => key r =? k) rows with
    | [] => []
    | r :: rs =>
        [(key r, func_sum Z.add (map (fun r => Some (qty r)) (r :: rs)))]
    end.
Proof.
  rewrite filter_map_commute. cbn [fst].
  rewrite (filter_ext _ (fun g : R * list R => key (fst g) =? k))
    by (intros g; apply Z.eqb_sym).
  unfold group_by. rewrite filter_arrange_unique; rewrite gather_lookup.
  - destruct (filter (fun r => key r =? k) rows); reflexivity.
  - destruct (filter (fun r => key r =? k) rows); cbn; lia.
Qed.

Lemma subquery_row_sum {R : Type} (key qty : R -> Z) (rows : list R)
    (k : Z) :
  coalesce (c (subquery_row key qty rows k)) 0
  = sum_Z (map qty (filter (fun r => key r =? k) rows)).
Proof.
  unfold subquery_row.
  destruct (filter (fun r => key r =? k) rows) as [|r rs] eqn:Hf;
    [reflexivity|].
  cbn [c]. apply coalesce_sum_Z.
Qed.

Lemma stock_per_product_rows (planner : Planner) (u : User.t)
    (d : Database) (now : datetime) :
  run (stock_per_product planner u) d now =
  (Ok (map (fun p =>
              StockPerProduct.mk (Product.id p) (Product.name p)
                (remaining_stock d (Product.id p)))
         (products d)),
   d).
Proof.
  unfold run, stock_per_product, execute. cbn [SessionLocal bind close].
  f_equal. f_equal.
  rewrite (outerjoin_one (products d) _ _
             (fun p => subquery_row Sale.product_id Sale.quantity (sales d)
                         (Product.id p))).
  2:{ intros p. rewrite subquery_lookup. unfold subquery_row.
      destruct (filter _ (sales d)); reflexivity. }
  rewrite (outerjoin_one _ _ _
             (fun row : Product.t * option (Z * option Z) =>
                subquery_row Purchase.product_id Purchase.quantity
                  (purchases d) (Product.id (fst row)))).
  2:{ intros row. rewrite subquery_lookup. unfold subquery_row.
      destruct (filter _ (purchases d)); reflexivity. }
  rewrite !map_map. apply map_ext. intros p. cbn [fst snd].
  now rewrite !subquery_row_sum.
Qed.

(** C1.  [stock_per_product] returns one row per product of the catalog, in
    catalog order, whose [remaining_stock] is the sum of the product's
    purchase quantities minus the sum of its sale quantities, an empty sum
    being 0, whatever the order PostgreSQL chooses for the groups of its
    two subqueries.  A product with no sale and no purchase is there with
    0, and the figure can be negative: in [shop_trading], 4 bought and 5
    sold give -1. *)
Theorem stock_per_product_is_purchased_minus_sold :
  (forall (planner : Planner) (u : User.t) (d : Database) (now : datetime),
     run (stock_per_product planner u) d now =
     (Ok (map (fun p =>
                 StockPerProduct.mk (Product.id p) (Product.name p)
                   (sum_Z (map Purchase.quantity
                             (purchases_of d (Product.id p)))
                    - sum_Z (map Sale.quantity (sales_of d (Product.id p)))))
            (products d)),
      d))
  /\ (forall (planner : Planner) (u : User.t) (d : Database)
             (now : datetime) (p : Product.t),
        In p (products d) ->
        sales_of d (Product.id p) = [] ->
        purchases_of d (Product.id p) = [] ->
        exists rows,
          fst (run (stock_per_product planner u) d now) = Ok rows
          /\ In (StockPerProduct.mk (Product.id p) (Product.name p) 0) rows)
  /\ (forall planner : Planner,
        fst (run (stock_per_product planner alice) shop_trading 0)
        = Ok [StockPerProduct.mk 1 "tea" (-1)]).
Proof.
  split; [|split].
  - intros planner u d now. apply stock_per_product_rows.
  - intros planner u d now p Hin Hs Hp. rewrite stock_per_product_rows.
    eexists. split; [reflexivity|].
    apply in_map_iff. exists p. split; [|assumption].
    unfold remaining_stock. now rewrite Hs, Hp.
  - intros planner. now rewrite stock_per_product_rows.
Qed.

Lemma stock_per_product_is_purchased_minus_sold_witness :
  exists rows,
    fst (run (stock_per_product (fun _ => [1%nat]) alice) shop 0) = Ok rows
    /\ In (StockPerProduct.mk 1 "tea" 0) rows.
Proof.
  refine (proj1 (proj2 stock_per_product_is_purchased_minus_sold)
            (fun _ => [1%nat]) alice shop 0 tea _ _ _).
  - cbn. left. reflexivity.
  - reflexivity.
  - reflexivity.
Defined.






Example the_groups_may_come_in_another_order :
  fst (run (sales_per_product (fun _ => [1%nat]) alice)
         (mkDatabase [alice] [tea; Product.mk 2 "milk" 3%float 4%float]
            [] [] 1 2 0 0)
         0)
  = Ok [SalesPerProduct.mk 2 "milk" 0 0%float;
        SalesPerProduct.mk 1 "tea" 0 0%float].
Proof.
  reflexivity.
Qed.


(* ================================================================== *)
(** * Further properties of the path operations *)
(* ================================================================== *)

(** ** Registration *)

Section Registration.

Variable jwt : MyJwt.






End Registration.




Lemma reachable_well_formed_witness :
  well_formed
    (snd (run (create_sale (SalePostMap.mk 1 2) alice)
            (snd (run (create_product
                         (ProductPostMap.mk "tea" 5%float 10%float) alice)
                    create_tables 10))
            20)).
Proof.
  apply (reachable_well_formed jwt_example).
  apply reach_create_sale. apply reach_create_product.
  apply reach_create_tables.
Defined.

(** ** Purchases and the catalog *)

(** [create_purchase] followed by [get_purchases], as for sales: for an
    existing product, and a product id and a quantity that an [INTEGER]
    holds, the list is what it was with one entry more, not listed before,
    with the submitted product and quantity, stamped with the reading of
    the clock at the flush. *)
Theorem record_purchase_then_list_purchases
    (product_id quantity : Z) (u : User.t) (d : Database)
    (now later : datetime) :
  well_formed d ->
  INTEGER_fits product_id = true ->
  INTEGER_fits quantity = true ->
  has_product d product_id = true ->
  exists (p : Purchase.t) (d' : Database)
         (before after : list (Purchase.t * option Product.t))
         (parent : option Product.t),
    run (create_purchase (PurchasePostMap.mk product_id quantity) u) d now
    = (Ok (PurchaseRow p), d')
    /\ fst (run (get_purchases u) d now) = Ok before
    /\ fst (run (get_purchases u) d' later) = Ok after
    /\ after = before ++ [(p, parent)]
    /\ ~ In p (map fst before)
    /\ ~ In (Purchase.id p) (map (fun e => Purchase.id (fst e)) before)
    /\ Purchase.product_id p = product_id
    /\ Purchase.quantity p = quantity
    /\ Purchase.created_at p = now.
Proof.
  intros Hwf Hpid Hq Hp.
  rewrite create_purchase_known by (auto; apply Hwf).
  eexists; eexists; eexists; eexists; eexists.
  split; [reflexivity|].
  split; [reflexivity|].
  split; [reflexivity|].
  split.
  - cbn. unfold selectinload. rewrite map_app. reflexivity.
  - pose proof (purchases_seq d Hwf) as Hseq.
    split; [|split; [|repeat split]].
    + cbn. unfold selectinload. rewrite map_map. cbn. rewrite map_id.
      intros Hin. rewrite Forall_forall in Hseq.
      apply Hseq in Hin. cbn in Hin. lia.
    + cbn. unfold selectinload. rewrite map_map. cbn.
      now apply Forall_le_not_In.
Qed.

Lemma record_purchase_then_list_purchases_witness :
  exists (p : Purchase.t) (d' : Database)
         (before after : list (Purchase.t * option Product.t))
         (parent : option Product.t),
    run (create_purchase (PurchasePostMap.mk 1 6) alice) shop_trading 3000
    = (Ok (PurchaseRow p), d')
    /\ fst (run (get_purchases alice) shop_trading 3000) = Ok before
    /\ fst (run (get_purchases alice) d' 3010) = Ok after
    /\ after = before ++ [(p, parent)]
    /\ ~ In p (map fst before)
    /\ ~ In (Purchase.id p) (map (fun e => Purchase.id (fst e)) before)
    /\ Purchase.product_id p = 1
    /\ Purchase.quantity p = 6
    /\ Purchase.created_at p = 3000.
Proof.
  apply (record_purchase_then_list_purchases 1 6 alice shop_trading 3000 3010
           shop_trading_well_formed).
  - reflexivity.
  - reflexivity.
  - reflexivity.
Defined.

(** [create_purchase] does not look the product up either.  A purchase for
    a product that does not exist reaches the [INSERT]: with integers that
    an [INTEGER] holds, the foreign key of [purchases] refuses it at the
    commit; with one that it does not hold, the statement is refused as out
    of range and nothing at all changes.  Either way the call ends in a
    500 and no table changes. *)
Theorem unknown_product_purchase_is_a_500_with_no_row
    (product_id quantity : Z) (u : User.t) (d : Database) (now : datetime) :
  has_product d product_id = false ->
  exists e d',
    run (create_purchase (PurchasePostMap.mk product_id quantity) u) d now
    = (Raise e, d')
    /\ status_of e = HTTP_500_INTERNAL_SERVER_ERROR
    /\ purchases d' = purchases d /\ sales d' = sales d
    /\ products d' = products d /\ fastapi_usersp d' = fastapi_usersp d
    /\ (INTEGER_fits product_id && INTEGER_fits quantity = true ->
        e = IntegrityError "purchases_product_id_fkey")
    /\ (INTEGER_fits product_id && INTEGER_fits quantity = false ->
        e = integer_out_of_range /\ d' = d).
Proof.
  intros Hp.
  destruct (INTEGER_fits product_id && INTEGER_fits quantity) eqn:Hrange.
  - apply andb_true_iff in Hrange as [Hpid Hq].
    rewrite create_purchase_unknown by assumption.
    eexists; eexists. split; [reflexivity|].
    do 5 (split; [reflexivity|]). split; [reflexivity|discriminate].
  - rewrite create_purchase_out_of_range by assumption.
    eexists; eexists. split; [reflexivity|].
    do 5 (split; [reflexivity|]). split; [discriminate|]. intros _. now split.
Qed.

Lemma unknown_product_purchase_is_a_500_with_no_row_witness :
  exists e d',
    run (create_purchase (PurchasePostMap.mk 2147483648 2) alice) shop 10
    = (Raise e, d')
    /\ status_of e = HTTP_500_INTERNAL_SERVER_ERROR
    /\ purchases d' = purchases shop /\ sales d' = sales shop
    /\ products d' = products shop /\ fastapi_usersp d' = fastapi_usersp shop
    /\ (INTEGER_fits 2147483648 && INTEGER_fits 2 = true ->
        e = IntegrityError "purchases_product_id_fkey")
    /\ (INTEGER_fits 2147483648 && INTEGER_fits 2 = false ->
        e = integer_out_of_range /\ d' = shop).
Proof.
  apply (unknown_product_purchase_is_a_500_with_no_row
           2147483648 2 alice shop 10).
  reflexivity.
Defined.





Example forty_euro_signs_are_a_name :
  String.length forty_euro_signs = 120%nat
  /\ char_length forty_euro_signs = 40%nat
  /\ fst (run (create_product
                 (ProductPostMap.mk forty_euro_signs 5%float 10%float)
                 alice)
            shop 10)
     = Ok (ProductRow (Product.mk 2 forty_euro_signs 5%float 10%float)).
Proof.
  repeat split.
Qed.

(** ** The ledger seen through the dashboards *)

Lemma sum_Z_app (l l' : list Z) : sum_Z (l ++ l') = sum_Z l + sum_Z l'.
Proof.
  unfold sum_Z. induction l as [|x l IH]; cbn; [reflexivity|].
  rewrite IH. lia.
Qed.


Lemma remaining_stock_after_sale (d : Database) (s : Sale.t) (x : Z) :
  remaining_stock
    (mkDatabase (fastapi_usersp d) (products d) (sales d ++ [s])
       (purchases d) (fastapi_usersp_id_seq d) (products_id_seq d)
       (sales_id_seq d + 1) (purchases_id_seq d)) x
  = remaining_stock d x
    - (if x =? Sale.product_id s then Sale.quantity s else 0).
Proof.
  unfold remaining_stock, sales_of, purchases_of. cbn.
  rewrite filter_app, map_app, sum_Z_app. cbn.
  rewrite (Z.eqb_sym x).
  destruct (Sale.product_id s =? x); unfold sum_Z; cbn; lia.
Qed.

Lemma remaining_stock_after_purchase (d : Database) (p : Purchase.t)
    (x : Z) :
  remaining_stock
    (mkDatabase (fastapi_usersp d) (products d) (sales d)
       (purchases d ++ [p]) (fastapi_usersp_id_seq d) (products_id_seq d)
       (sales_id_seq d) (purchases_id_seq d + 1)) x
  = remaining_stock d x
    + (if x =? Purchase.product_id p then Purchase.quantity p else 0).
Proof.
  unfold remaining_stock, sales_of, purchases_of. cbn.
  rewrite filter_app, map_app, sum_Z_app. cbn.
  rewrite (Z.eqb_sym x).
  destruct (Purchase.product_id p =? x); unfold sum_Z; cbn; lia.
Qed.

(** A sale recorded for a product, with a product id and a quantity that
    an [INTEGER] holds, lowers that product's [remaining_stock] on the stock
    dashboard by exactly the quantity sold, below zero if need be, and
    leaves every other row of the dashboard as it was. *)
Theorem a_sale_lowers_the_stock_by_its_quantity
    (planner planner' : Planner) (product_id quantity : Z) (u : User.t)
    (d : Database) (now later : datetime) :
  well_formed d ->
  INTEGER_fits product_id = true ->
  INTEGER_fits quantity = true ->
  has_product d product_id = true ->
  exists (row : Row) (d' : Database) (before after : list StockPerProduct.t),
    run (create_sale (SalePostMap.mk product_id quantity) u) d now
    = (Ok row, d')
    /\ fst (run (stock_per_product planner u) d now) = Ok before
    /\ fst (run (stock_per_product planner' u) d' later) = Ok after
    /\ after
       = map (fun r =>
                if StockPerProduct.product_id r =? product_id
                then StockPerProduct.mk (StockPerProduct.product_id r)
                       (StockPerProduct.product_name r)
                       (StockPerProduct.remaining_stock r - quantity)
                else r)
           before.
Proof.
  intros Hwf Hpid Hq Hp.
  eexists; eexists; eexists; eexists.
  split; [apply create_sale_known; auto; apply Hwf|].
  rewrite !stock_per_product_rows.
  split; [reflexivity|]. split; [reflexivity|].
  cbn [products]. rewrite map_map. apply map_ext. intros p.
  cbn [StockPerProduct.product_id StockPerProduct.product_name
       StockPerProduct.remaining_stock].
  rewrite remaining_stock_after_sale. cbn [Sale.product_id Sale.quantity].
  destruct (Product.id p =? product_id); [reflexivity|].
  f_equal. lia.
Qed.

Lemma a_sale_lowers_the_stock_by_its_quantity_witness :
  exists (row : Row) (d' : Database) (before after : list StockPerProduct.t),
    run (create_sale (SalePostMap.mk 1 7) alice) shop_trading 3000
    = (Ok row, d')
    /\ fst (run (stock_per_product (fun _ => []) alice) shop_trading 3000)
       = Ok before
    /\ fst (run (stock_per_product (fun _ => [1%nat]) alice) d' 3010)
       = Ok after
    /\ after
       = map (fun r =>
                if StockPerProduct.product_id r =? 1
                then StockPerProduct.mk (StockPerProduct.product_id r)
                       (StockPerProduct.product_name r)
                       (StockPerProduct.remaining_stock r - 7)
                else r)
           before.
Proof.
  apply (a_sale_lowers_the_stock_by_its_quantity (fun _ => [])
           (fun _ => [1%nat]) 1 7 alice shop_trading 3000 3010
           shop_trading_well_formed).
  - reflexivity.
  - reflexivity.
  - reflexivity.
Defined.

(** A purchase recorded for a product, with a product id and a quantity
    that an [INTEGER] holds, raises that product's [remaining_stock] on the
    stock dashboard by exactly the quantity bought and leaves every other
    row as it was. *)
Theorem a_purchase_raises_the_stock_by_its_quantity
    (planner planner' : Planner) (product_id quantity : Z) (u : User.t)
    (d : Database) (now later : datetime) :
  well_formed d ->
  INTEGER_fits product_id = true ->
  INTEGER_fits quantity = true ->
  has_product d product_id = true ->
  exists (row : Row) (d' : Database) (before after : list StockPerProduct.t),
    run (create_purchase (PurchasePostMap.mk product_id quantity) u) d now
    = (Ok row, d')
    /\ fst (run (stock_per_product planner u) d now) = Ok before
    /\ fst (run (stock_per_product planner' u) d' later) = Ok after
    /\ after
       = map (fun r =>
                if StockPerProduct.product_id r =? product_id
                then StockPerProduct.mk (StockPerProduct.product_id r)
                       (StockPerProduct.product_name r)
                       (StockPerProduct.remaining_stock r + quantity)
                else r)
           before.
Proof.
  intros Hwf Hpid Hq Hp.
  eexists; eexists; eexists; eexists.
  split; [apply create_purchase_known; auto; apply Hwf|].
  rewrite !stock_per_product_rows.
  split; [reflexivity|]. split; [reflexivity|].
  cbn [products]. rewrite map_map. apply map_ext. intros p.
  cbn [StockPerProduct.product_id StockPerProduct.product_name
       StockPerProduct.remaining_stock].
  rewrite remaining_stock_after_purchase.
  cbn [Purchase.product_id Purchase.quantity].
  destruct (Product.id p =? product_id); [reflexivity|].
  f_equal. lia.
Qed.

Lemma a_purchase_raises_the_stock_by_its_quantity_witness :
  exists (row : Row) (d' : Database) (before after : list StockPerProduct.t),
    run (create_purchase (PurchasePostMap.mk 1 7) alice) shop_trading 3000
    = (Ok row, d')
    /\ fst (run (stock_per_product (fun _ => []) alice) shop_trading 3000)
       = Ok before
    /\ fst (run (stock_per_product (fun _ => [1%nat]) alice) d' 3010)
       = Ok after
    /\ after
       = map (fun r =>
                if StockPerProduct.product_id r =? 1
                then StockPerProduct.mk (StockPerProduct.product_id r)
                       (StockPerProduct.product_name r)
                       (StockPerProduct.remaining_stock r + 7)
                else r)
           before.
Proof.
  apply (a_purchase_raises_the_stock_by_its_quantity (fun _ => [])
           (fun _ => [1%nat]) 1 7 alice shop_trading 3000 3010
           shop_trading_well_formed).
  - reflexivity.
  - reflexivity.
  - reflexivity.
Defined.




(** ** Lists and dashboards against the tables *)

Lemma find_existsb {A : Type} (f : A -> bool) (l : list A) :
  existsb f l = true -> exists x, find f l = Some x /\ In x l /\ f x = true.
Proof.
  induction l as [|a l IH]; cbn; [discriminate|].
  destruct (f a) eqn:Hfa; cbn.
  - intros _. exists a. auto.
  - intros H. destruct (IH H) as [x [Hx [Hin Hfx]]]. exists x. auto.
Qed.

(** With the foreign keys holding, [get_sales] and [get_purchases] return
    the rows of their table, all of them and in table order, each loaded
    with the product it references: never without one, never with
    another. *)
Theorem listed_sales_and_purchases_carry_their_product
    (u : User.t) (d : Database) (now : datetime) :
  no_orphans d ->
  (exists rows,
     fst (run (get_sales u) d now) = Ok rows
     /\ map fst rows = sales d
     /\ Forall (fun e : Sale.t * option Product.t =>
                  exists p, snd e = Some p /\ In p (products d)
                            /\ Product.id p = Sale.product_id (fst e))
          rows)
  /\ (exists rows,
        fst (run (get_purchases u) d now) = Ok rows
        /\ map fst rows = purchases d
        /\ Forall (fun e : Purchase.t * option Product.t =>
                     exists p, snd e = Some p /\ In p (products d)
                               /\ Product.id p = Purchase.product_id (fst e))
             rows).
Proof.
  intros [Hs Hp]. split; eexists; (split; [reflexivity|]); cbn;
    unfold selectinload; (split; [rewrite map_map; apply map_id|]).
  - apply Forall_forall. intros e He.
    apply in_map_iff in He as [s [<- Hin]]. cbn.
    rewrite Forall_forall in Hs. specialize (Hs s Hin).
    apply find_existsb in Hs as [p [Hfind [Hinp Hid]]].
    exists p. split; [exact Hfind|]. split; [assumption|lia].
  - apply Forall_forall. intros e He.
    apply in_map_iff in He as [pu [<- Hin]]. cbn.
    rewrite Forall_forall in Hp. specialize (Hp pu Hin).
    apply find_existsb in Hp as [p [Hfind [Hinp Hid]]].
    exists p. split; [exact Hfind|]. split; [assumption|lia].
Qed.

Lemma listed_sales_and_purchases_carry_their_product_witness :
  exists rows,
    fst (run (get_sales alice) shop_trading 0) = Ok rows
    /\ map fst rows = sales shop_trading
    /\ Forall (fun e : Sale.t * option Product.t =>
                 exists p, snd e = Some p /\ In p (products shop_trading)
                           /\ Product.id p = Sale.product_id (fst e))
         rows.
Proof.
  apply (listed_sales_and_purchases_carry_their_product alice shop_trading 0).
  split; cbn; repeat constructor.
Defined.












(** ** What the writes leave alone *)

(** Each writing path operation touches its own table only, and only by
    adding at most one row at its end: whatever the input and whatever the
    outcome, the rows already in any table stay as they are, in their
    order, and the three other tables do not change. *)
Theorem writes_append_to_their_own_table (d : Database) (now : datetime) :
  (forall (jwt : MyJwt) (user : UserPostRegister.t),
     let d' := snd (run (register_user jwt user) d now) in
     grown_by_at_most_one (fastapi_usersp d) (fastapi_usersp d')
     /\ products d' = products d /\ sales d' = sales d
     /\ purchases d' = purchases d)
  /\ (forall (json_product_obj : ProductPostMap.t) (u : User.t),
        let d' := snd (run (create_product json_product_obj u) d now) in
        grown_by_at_most_one (products d) (products d')
        /\ fastapi_usersp d' = fastapi_usersp d /\ sales d' = sales d
        /\ purchases d' = purchases d)
  /\ (forall (json_sale_obj : SalePostMap.t) (u : User.t),
        let d' := snd (run (create_sale json_sale_obj u) d now) in
        grown_by_at_most_one (sales d) (sales d')
        /\ fastapi_usersp d' = fastapi_usersp d /\ products d' = products d
        /\ purchases d' = purchases d)
  /\ (forall (json_purchase_obj : PurchasePostMap.t) (u : User.t),
        let d' := snd (run (create_purchase json_purchase_obj u) d now) in
        grown_by_at_most_one (purchases d) (purchases d')
        /\ fastapi_usersp d' = fastapi_usersp d /\ products d' = products d
        /\ sales d' = sales d).
Proof.
  unfold grown_by_at_most_one. split; [|split; [|split]].
  - intros jwt [email fullname password]. cbn zeta.
    unfold run, register_user, bindM, execute. cbn.
    destruct (filter (fun u => String.eqb (User.email u) email)
                (fastapi_usersp d)) as [|x [|y l]]; cbn; auto.
    unfold commit, refresh, ret. cbn. unfold INSERT_user. cbn.
    destruct (negb _); cbn; auto.
    destruct (has_email d email); cbn; auto.
    destruct (find _ _); cbn; eauto 6.
  - intros [name buying_price selling_price] u. cbn zeta.
    unfold run, create_product, bindM, add, commit, refresh. cbn.
    unfold INSERT_product. destruct (negb _); cbn; auto.
    destruct (find _ _); cbn; eauto 6.
  - intros [product_id quantity] u. cbn zeta.
    unfold run, create_sale, bindM, add, commit, refresh. cbn.
    unfold INSERT_sale. destruct (negb _); cbn; auto.
    destruct (negb _); cbn; auto.
    destruct (find _ _); cbn; eauto 6.
  - intros [product_id quantity] u. cbn zeta.
    unfold run, create_purchase, bindM, add, commit, refresh. cbn.
    unfold INSERT_purchase. destruct (negb _); cbn; auto.
    destruct (negb _); cbn; auto.
    destruct (find _ _); cbn; eauto 6.
Qed.

(** ** Whole calls *)

(** A protected route whose token [get_current_user] refuses: the call ends
    with the exception of [get_current_user]; the path operation is not
    run, no session is taken and the database is not touched. *)
Theorem a_refused_token_stops_the_call
    (jwt : MyJwt) (planner : Planner)
    (SessionLocal_call : Session -> Result Session)
    (req : Request) (token : string) (w : World) (e : Exception) :
  token_of req = Some token ->
  get_current_user jwt (database w) token = Raise e ->
  app jwt planner SessionLocal_call req w = (Raise e, w).
Proof.
  intros Htoken Hrefused.
  destruct req; cbn in Htoken; try discriminate;
    injection Htoken as ->;
    unfold app, Depends_current_user_then_db; rewrite Hrefused; reflexivity.
Qed.

Lemma a_refused_token_stops_the_call_witness :
  app jwt_example (fun _ => []) (fun s => Ok s)
    (POST_sales "token:mallory" (SalePostMap.mk 1 2)) (mkWorld shop 10 [])
  = (Raise (HTTPException HTTP_401_UNAUTHORIZED
              "Could not validate credentials"),
     mkWorld shop 10 []).
Proof.
  apply (a_refused_token_stops_the_call jwt_example (fun _ => [])
           (fun s => Ok s)
           (POST_sales "token:mallory" (SalePostMap.mk 1 2))
           "token:mallory" (mkWorld shop 10 [])).
  - reflexivity.
  - reflexivity.
Defined.

(** When the call [SessionLocal()] of [get_db] raises, it does so before
    the [try]: every route that depends on [get_db] ends with an exception,
    that one unless [get_current_user] had already raised its own, and the
    world is what it was, with no session taken and none closed. *)
Theorem a_failed_SessionLocal_fails_every_get_db_route
    (jwt : MyJwt) (planner : Planner)
    (SessionLocal_call : Session -> Result Session)
    (req : Request) (w : World) (e : Exception) :
  depends_on_get_db req = true ->
  SessionLocal_call (SessionLocal (database w) (clock w)) = Raise e ->
  exists e',
    app jwt planner SessionLocal_call req w = (Raise e', w)
    /\ (e' = e
        \/ exists token,
             token_of req = Some token
             /\ get_current_user jwt (database w) token = Raise e').
Proof.
  intros Hdep Hcall.
  destruct req; cbn in Hdep; try discriminate;
    unfold app, Depends_current_user_then_db, get_db;
    try (destruct (get_current_user jwt (database w) token) as [u|e0] eqn:Hu;
         [|exists e0; split; [reflexivity|right; eexists; split;
                                           [reflexivity|exact Hu]]]);
    rewrite Hcall; exists e; split; auto.
Qed.

Lemma a_failed_SessionLocal_fails_every_get_db_route_witness :
  exists e',
    app jwt_example (fun _ => []) Session_call
      (GET_products "token:alice@duka.test") (mkWorld shop 10 [])
    = (Raise e', mkWorld shop 10 [])
    /\ (e' = TypeError "'Session' object is not callable"
        \/ exists token,
             token_of (GET_products "token:alice@duka.test") = Some token
             /\ get_current_user jwt_example (database (mkWorld shop 10 []))
                  token = Raise e').
Proof.
  apply (a_failed_SessionLocal_fails_every_get_db_route jwt_example
           (fun _ => []) Session_call
           (GET_products "token:alice@duka.test") (mkWorld shop 10 [])).
  - reflexivity.
  - reflexivity.
Defined.
